(** * ERC-7201 namespace quick fixes of the OpenZeppelin language server

    A shallow embedding of [server/src/quickfixes.ts] and of the code-action
    part of [server/src/server.ts], together with the statements the
    specification makes about them. *)

From Stdlib Require Import List String Ascii ZArith Lia Bool Arith.
Import ListNotations.

Local Open Scope string_scope.

#[local] Set Warnings "-register-all".

(** ** Keccak-256

    The hash primitive of [ethereum-cryptography/keccak], written after the
    Keccak reference: a sponge of rate 136 bytes over Keccak-f[1600], with the
    original Keccak padding (0x01 .. 0x80).  Lanes are 64-bit integers in [Z],
    truncation written out with [Z.land _ (Z.ones 64)]. *)
Module Keccak.

Local Open Scope Z_scope.

Definition rotl64 (x n : Z) : Z :=
  Z.land (Z.lor (Z.shiftl x n) (Z.shiftr x (64 - n))) (Z.ones 64).

Definition not64 (x : Z) : Z := Z.lxor x (Z.ones 64).

Definition round_constants : list Z :=
  [ 0x0000000000000001; 0x0000000000008082; 0x800000000000808a;
    0x8000000080008000; 0x000000000000808b; 0x0000000080000001;
    0x8000000080008081; 0x8000000000008009; 0x000000000000008a;
    0x0000000000000088; 0x0000000080008009; 0x000000008000000a;
    0x000000008000808b; 0x800000000000008b; 0x8000000000008089;
    0x8000000000008003; 0x8000000000008002; 0x8000000000000080;
    0x000000000000800a; 0x800000008000000a; 0x8000000080008081;
    0x8000000000008080; 0x0000000080000001; 0x8000000080008008 ].

(** Rotation offsets and lane permutation of the combined rho and pi steps,
    in the order the lanes are visited starting from lane 1. *)
Definition rho_offsets : list Z :=
  [ 1; 3; 6; 10; 15; 21; 28; 36; 45; 55; 2; 14;
    27; 41; 56; 8; 25; 43; 62; 18; 39; 61; 20; 44 ].

Definition pi_lanes : list nat :=
  [ 10; 7; 11; 17; 18; 3; 5; 16; 8; 21; 24; 4;
    15; 23; 19; 13; 12; 2; 20; 14; 22; 9; 6; 1 ]%nat.

Definition State := list Z.

Definition lane (st : State) (i : nat) : Z := nth i st 0.

Fixpoint set_lane (st : State) (i : nat) (v : Z) : State :=
  match st, i with
  | [], _ => []
  | _ :: st', O => v :: st'
  | a :: st', S i' => a :: set_lane st' i' v
  end.

Definition lanes_of (f : nat -> Z) : State := map f (seq 0 25).

Definition theta (st : State) : State :=
  let C x := Z.lxor (lane st x)
              (Z.lxor (lane st (x + 5))
                (Z.lxor (lane st (x + 10))
                  (Z.lxor (lane st (x + 15)) (lane st (x + 20))))) in
  let D x := Z.lxor (C ((x + 4) mod 5)%nat) (rotl64 (C ((x + 1) mod 5)%nat) 1) in
  lanes_of (fun i => Z.lxor (lane st i) (D (i mod 5)%nat)).

Definition rho_pi (st : State) : State :=
  fst (fold_left
         (fun (acc : State * Z) (jr : nat * Z) =>
            let '(s, t) := acc in
            let '(j, r) := jr in
            (set_lane s j (rotl64 t r), lane s j))
         (combine pi_lanes rho_offsets)
         (st, lane st 1)).

Definition chi (st : State) : State :=
  lanes_of (fun i =>
    let x := (i mod 5)%nat in
    let y := (5 * (i / 5))%nat in
    Z.lxor (lane st i)
      (Z.land (not64 (lane st (y + (x + 1) mod 5)))
              (lane st (y + (x + 2) mod 5)))).

Definition iota (rc : Z) (st : State) : State :=
  set_lane st 0 (Z.lxor (lane st 0) rc).

Definition round (st : State) (rc : Z) : State :=
  iota rc (chi (rho_pi (theta st))).

Definition keccak_f1600 (st : State) : State :=
  fold_left round round_constants st.

Definition rate : nat := 136.

(** Keccak padding (pad10*1 with the 0x01 domain byte) up to a multiple of
    the rate. *)
Definition pad (len : nat) : list Z :=
  let q := (rate - len mod rate)%nat in
  match q with
  | 1%nat => [0x81]
  | _ => 0x01 :: repeat 0 (q - 2) ++ [0x80]
  end.

(** Absorbing one byte at position [pos] of the current block; the block is
    permuted once its last byte is in. *)
Definition absorb_byte (acc : State * nat) (b : Z) : State * nat :=
  let '(st, pos) := acc in
  let i := (pos / 8)%nat in
  let st' := set_lane st i (Z.lxor (lane st i) (Z.shiftl b (8 * Z.of_nat (pos mod 8)))) in
  if (S pos =? rate)%nat then (keccak_f1600 st', 0%nat) else (st', S pos).

Definition lane_bytes (v : Z) : list Z :=
  map (fun k => Z.land (Z.shiftr v (8 * Z.of_nat k)) 0xff) (seq 0 8).

Definition keccak256 (msg : list Z) : list Z :=
  let st := fst (fold_left absorb_byte (msg ++ pad (List.length msg)) (repeat 0 25, 0%nat)) in
  flat_map (fun i => lane_bytes (lane st i)) (seq 0 4).

End Keccak.

(** ** Namespace identity (namespace.ts) *)
Module NamespaceIdentity.

Local Open Scope Z_scope.

(** A string is its sequence of UTF-8 bytes. *)
Definition utf8ToBytes (s : string) : list Z :=
  map (fun c => Z.of_nat (nat_of_ascii c)) (list_ascii_of_string s).

(** Big-endian reading of a byte sequence as an unsigned integer. *)
Definition bytesToUint (bs : list Z) : Z :=
  fold_left (fun acc b => acc * 256 + b) bs 0.

(** The 32 big-endian bytes of a 256-bit word. *)
Definition uintToBytes32 (v : Z) : list Z :=
  map (fun k => Z.land (Z.shiftr v (8 * Z.of_nat (31 - k))) 0xff) (seq 0 32).

Definition hexDigit (d : Z) : ascii :=
  match Z.to_nat d with
  | 0 => "0" | 1 => "1" | 2 => "2" | 3 => "3" | 4 => "4"
  | 5 => "5" | 6 => "6" | 7 => "7" | 8 => "8" | 9 => "9"
  | 10 => "a" | 11 => "b" | 12 => "c" | 13 => "d" | 14 => "e"
  | _ => "f"
  end%nat%char.

(** [n] hexadecimal digits of [v], most significant first, in front of [acc]. *)
Fixpoint hexDigits (n : nat) (v : Z) (acc : string) : string :=
  match n with
  | O => acc
  | S n' => hexDigits n' (v / 16) (String (hexDigit (v mod 16)) acc)
  end.

Definition toHex64 (v : Z) : string := "0x" ++ hexDigits 64 v "".

Definition keccakUint (s : string) : Z :=
  bytesToUint (Keccak.keccak256 (utf8ToBytes s)).

(** The slot of a hash: (H - 1) bitwise-and (bitwise-not 0xff) on 256-bit
    words, so the subtraction wraps. *)
Definition slotOf (H : Z) : Z :=
  Z.land ((H - 1) mod 2 ^ 256) (Z.lnot 0xff).

(** The slot as the clause of section 4.1 spells it out: one hash, then
    the decrement and the mask. *)
Definition spelledSlot (id : string) : string :=
  toHex64 (slotOf (keccakUint id)).

(** The formula of the ERC-7201 standard itself,
    keccak256(abi.encode(uint256(keccak256(id)) - 1)) & ~bytes32(uint256(0xff)):
    the decremented hash is hashed a second time before masking. *)
Definition erc7201Slot (id : string) : string :=
  let H := keccakUint id in
  let H2 := bytesToUint (Keccak.keccak256 (uintToBytes32 ((H - 1) mod 2 ^ 256))) in
  toHex64 (Z.land H2 (Z.lnot 0xff)).

(** Modelled from the spec: [computeSlotHash] of namespace.ts, which is not
    among the sources.  Section 4.1: it implements the ERC-7201 formula
    exactly and must reproduce the published example vectors of the
    standard bit for bit; section 8: for the published example identifier
    it equals the published slot.  That is the formula of the standard; the
    steps section 4.1 spells out leave the second hash out, and
    [spelledSlot] does not give the published slot. *)
Definition computeSlotHash (id : string) : string := erc7201Slot id.

(** Reading a slot hash back: the value of a hexadecimal digit, of a
    sequence of digits, and of "0x" and digits. *)
Definition hexValue (c : ascii) : option Z :=
  let n := nat_of_ascii c in
  if ((48 <=? n) && (n <=? 57))%nat then Some (Z.of_nat n - 48)
  else if ((97 <=? n) && (n <=? 102))%nat then Some (Z.of_nat n - 87)
  else None.

Fixpoint parseHexDigits (s : string) (acc : Z) : option Z :=
  match s with
  | EmptyString => Some acc
  | String c s' =>
      match hexValue c with
      | Some d => parseHexDigits s' (acc * 16 + d)
      | None => None
      end
  end.

Definition fromHex (s : string) : option Z :=
  match s with
  | String "0" (String "x" digits) => parseHexDigits digits 0
  | _ => None
  end.

(** The example of the ERC-7201 standard: identifier and published slot. *)
Definition erc7201ExampleId : string := "example.main".
Definition erc7201ExampleSlot : string :=
  "0x183a6125c38840424c4a85fa12bab2ab606c4b6d0e7cc73c0c06ba5300eab500".

Definition isLowerHexDigit (c : ascii) : bool :=
  let n := nat_of_ascii c in
  ((48 <=? n) && (n <=? 57) || (97 <=? n) && (n <=? 102))%nat.

(** The output format: 66 characters, "0x" and then 64 lowercase hex digits. *)
Definition isSlotHashFormat (s : string) : bool :=
  match s with
  | String "0" (String "x" digits) =>
      (String.length digits =? 64)%nat
      && forallb isLowerHexDigit (list_ascii_of_string digits)
  | _ => false
  end.

End NamespaceIdentity.

(** ** Exceptions

    Failed assertions and type errors are thrown; [Result] is the error
    monad the embedded functions run in. *)
Inductive Result (A : Type) : Type :=
| Ok (value : A)
| Throw (message : string).
Arguments Ok {A} value.
Arguments Throw {A} message.

Definition bind {A B : Type} (r : Result A) (k : A -> Result B) : Result B :=
  match r with
  | Ok a => k a
  | Throw m => Throw m
  end.

Notation "x <- r ;; k" := (bind r (fun x => k))
  (at level 61, r at next level, right associativity).
Notation "' pat <- r ;; k" := (bind r (fun x => match x with pat => k end))
  (at level 61, pat pattern, r at next level, right associativity).

Definition assert (b : bool) : Result unit :=
  if b then Ok tt else Throw "AssertionError".

(** What a loop body hands back: go on with the next iteration ([continue]
    and the normal end of the body) or leave the loop ([break]). *)
Inductive Control (S : Type) : Type :=
| Continue (state : S)
| Break (state : S).
Arguments Continue {S} state.
Arguments Break {S} state.

(** [String.prototype.includes] *)
Fixpoint includes (s sub : string) : bool :=
  prefix sub s
  || match s with
     | EmptyString => false
     | String _ s' => includes s' sub
     end.

(** ** Syntax trees and cursors

    The part of @nomicfoundation/slang the quick fixes rely on: a concrete
    syntax tree whose terminals carry their text, and a cursor that walks a
    subtree in pre-order and knows the text offset of the node it is at. *)
Module Slang.

Inductive TerminalKind : Type :=
| Identifier
| OpenBrace
| CloseBrace
| SingleLineNatSpecComment
| OtherTerminal (name : string).

Inductive NonterminalKind : Type :=
| SourceUnit
| ContractDefinition
| ConstructorDefinition
| FunctionBody
| Block
| OtherNonterminal (name : string).

Definition TerminalKind_eqb (a b : TerminalKind) : bool :=
  match a, b with
  | Identifier, Identifier
  | OpenBrace, OpenBrace
  | CloseBrace, CloseBrace
  | SingleLineNatSpecComment, SingleLineNatSpecComment => true
  | OtherTerminal x, OtherTerminal y => String.eqb x y
  | _, _ => false
  end.

Definition NonterminalKind_eqb (a b : NonterminalKind) : bool :=
  match a, b with
  | SourceUnit, SourceUnit
  | ContractDefinition, ContractDefinition
  | ConstructorDefinition, ConstructorDefinition
  | FunctionBody, FunctionBody
  | Block, Block => true
  | OtherNonterminal x, OtherNonterminal y => String.eqb x y
  | _, _ => false
  end.

Inductive Node : Type :=
| TerminalNode (kind : TerminalKind) (text : string)
| NonterminalNode (kind : NonterminalKind) (children : list Node).

Fixpoint unparse (n : Node) : string :=
  match n with
  | TerminalNode _ text => text
  | NonterminalNode _ children =>
      (fix all (cs : list Node) : string :=
         match cs with
         | [] => ""
         | c :: cs' => unparse c ++ all cs'
         end) children
  end.

(** The text of a sequence of siblings. *)
Fixpoint unparseAll (cs : list Node) : string :=
  match cs with
  | [] => ""
  | c :: cs' => unparse c ++ unparseAll cs'
  end.

Definition isTerminal (n : Node) : bool :=
  match n with TerminalNode _ _ => true | NonterminalNode _ _ => false end.

Definition isNonterminal (n : Node) : bool := negb (isTerminal n).

Definition isTerminalWithKind (k : TerminalKind) (n : Node) : bool :=
  match n with
  | TerminalNode k' _ => TerminalKind_eqb k' k
  | NonterminalNode _ _ => false
  end.

Definition isNonterminalWithKinds (ks : list NonterminalKind) (n : Node) : bool :=
  match n with
  | TerminalNode _ _ => false
  | NonterminalNode k' _ => existsb (NonterminalKind_eqb k') ks
  end.

Definition isNonterminalWithKind (k : NonterminalKind) : Node -> bool :=
  isNonterminalWithKinds [k].

(** Offsets count UTF-16 code units from the start of the document. *)
Record TextRange : Type := { start : nat; end_ : nat }.

(** A node together with the offset at which its text starts. *)
Definition Located : Type := (Node * nat)%type.

(** The nodes of a subtree in the order a cursor visits them, the root
    first. *)
Fixpoint preorder (n : Node) (offset : nat) : list Located :=
  (n, offset)
  :: match n with
     | TerminalNode _ _ => []
     | NonterminalNode _ children =>
         (fix all (cs : list Node) (off : nat) : list Located :=
            match cs with
            | [] => []
            | c :: cs' => (preorder c off ++ all cs' (off + String.length (unparse c)))%list
            end) children offset
     end.

(** The same enumeration for a sequence of siblings, the first of which
    starts at [offset]. *)
Fixpoint preorderAll (cs : list Node) (offset : nat) : list Located :=
  match cs with
  | [] => []
  | c :: cs' => (preorder c offset ++ preorderAll cs' (offset + String.length (unparse c)))%list
  end.


(** Induction over trees, with the hypothesis for all the children. *)
Section NodeInduction.

Variable P : Node -> Prop.
Hypothesis Hterminal : forall k text, P (TerminalNode k text).
Hypothesis Hnonterminal : forall k cs, Forall P cs -> P (NonterminalNode k cs).

Fixpoint Node_induction (n : Node) : P n :=
  match n with
  | TerminalNode k text => Hterminal k text
  | NonterminalNode k cs =>
      Hnonterminal k cs
        ((fix all (cs : list Node) : Forall P cs :=
            match cs with
            | [] => Forall_nil P
            | c :: cs' => Forall_cons c (Node_induction c) (all cs')
            end) cs)
  end.

End NodeInduction.

(** A cursor: the node it is at, the node it was created or spawned at (it
    never leaves that subtree), the nodes it has still to visit, and whether
    the traversal is over. *)
Record Cursor : Type := mkCursor {
  node : Node;
  textOffset : nat;
  rootNode : Node;
  rootOffset : nat;
  pending : list Located;
  isCompleted : bool
}.

Definition cursorAt (n : Node) (offset : nat) : Cursor :=
  mkCursor n offset n offset (tl (preorder n offset)) false.

Definition spawn (c : Cursor) : Cursor := cursorAt (node c) (textOffset c).

Definition textRange (c : Cursor) : TextRange :=
  {| start := textOffset c;
     end_ := textOffset c + String.length (unparse (node c)) |}.

(** The first pending node that satisfies [p], and what is pending after it. *)
Fixpoint seek (p : Node -> bool) (l : list Located) : option (Located * list Located) :=
  match l with
  | [] => None
  | x :: l' => if p (fst x) then Some (x, l') else seek p l'
  end.

(** [goToNext...]: moves to the next node in pre-order that satisfies [p];
    when there is none the cursor is back at its root, completed, and the
    call (and every later one) answers false. *)
Definition goToNextMatching (p : Node -> bool) (c : Cursor) : bool * Cursor :=
  if isCompleted c then (false, c)
  else match seek p (pending c) with
       | Some ((n, off), rest) =>
           (true, mkCursor n off (rootNode c) (rootOffset c) rest false)
       | None =>
           (false, mkCursor (rootNode c) (rootOffset c) (rootNode c) (rootOffset c) [] true)
       end.

Definition goToNextTerminalWithKind (k : TerminalKind) : Cursor -> bool * Cursor :=
  goToNextMatching (isTerminalWithKind k).

Definition goToNextNonterminalWithKind (k : NonterminalKind) : Cursor -> bool * Cursor :=
  goToNextMatching (isNonterminalWithKind k).

Definition goToNextNonterminalWithKinds (ks : list NonterminalKind) : Cursor -> bool * Cursor :=
  goToNextMatching (isNonterminalWithKinds ks).

(** [while (cursor.goToNext...(p)) { body }] for a body that leaves the
    cursor where it is: the body runs at every pending node that satisfies
    [p], in order, until it breaks or throws. *)
Fixpoint whilePending {S : Type} (p : Node -> bool) (root : Located)
    (l : list Located) (body : Cursor -> S -> Result (Control S)) (s : S) : Result S :=
  match l with
  | [] => Ok s
  | (n, off) :: rest =>
      if p n then
        r <- body (mkCursor n off (fst root) (snd root) rest false) s ;;
        match r with
        | Continue s' => whilePending p root rest body s'
        | Break s' => Ok s'
        end
      else whilePending p root rest body s
  end.

Definition whileGoToNext {S : Type} (p : Node -> bool) (c : Cursor)
    (body : Cursor -> S -> Result (Control S)) (s : S) : Result S :=
  if isCompleted c then Ok s
  else whilePending p (rootNode c, rootOffset c) (pending c) body s.

Record ParseOutput : Type := { tree : Node; isValid : bool }.

Definition createTreeCursor (o : ParseOutput) : Cursor := cursorAt (tree o) 0.

(** [new ContractDefinition(node).name.text]: the text of the name terminal,
    the first identifier among the children of the definition. *)
Definition contractDefName (n : Node) : Result string :=
  match n with
  | TerminalNode _ _ => Throw "AssertionError"
  | NonterminalNode _ children =>
      match find (isTerminalWithKind Identifier) children with
      | Some (TerminalNode _ text) => Ok text
      | _ => Throw "TypeError"
      end
  end.

End Slang.

(** ** Documents, diagnostics, edits and actions

    The protocol types of vscode-languageserver that the fixes produce and
    consume, and the [Variable] and [Namespace] types of namespace.ts as the
    fixes use them ([Variable] is [StorageVariable] here). *)
Module LSP.

Record Position : Type := { line : nat; character : nat }.

Record Range : Type := { start : Position; end_ : Position }.

Record TextDocument : Type := { uri : string; getText : string }.

Record TextEdit : Type := { range : Range; newText : string }.

Record PublicGetter : Type := { getterTypeName : string }.

Record StorageVariable : Type := {
  name : string;
  typeName : string;
  content : string;
  variableRange : Range;
  publicGetter : option PublicGetter
}.

Record Namespace : Type := {
  namespaceContractName : string;
  namespacePrefix : string;
  namespaceVariables : list StorageVariable
}.

(** [NamespaceableContract] of server.ts. *)
Record NamespaceableContract : Type := {
  contractName : string;
  contractVariables : list StorageVariable
}.

(** The fix datum of a diagnostic ([data?: LSPAny]): absent, an object with
    a [replacement], or a [NamespaceableContract]. *)
Inductive DiagnosticData : Type :=
| NoData
| ReplacementData (replacement : string)
| NamespaceableData (contract : NamespaceableContract).

Record Diagnostic : Type := {
  diagnosticRange : Range;
  message : string;
  code : string;
  data : DiagnosticData
}.

Inductive CodeActionKind : Type := QuickFix.

(** [changes] maps a document uri to the edits of that document. *)
Record WorkspaceEdit : Type := { changes : list (string * list TextEdit) }.

Record CodeAction : Type := {
  title : string;
  kind : CodeActionKind;
  edit : WorkspaceEdit;
  diagnostics : list Diagnostic
}.

Definition Position_ltb (a b : Position) : bool :=
  ((line a <? line b) || ((line a =? line b) && (character a <? character b)))%nat.

(** Two ranges overlap when they share at least one character. *)
Definition rangesOverlap (a b : Range) : bool :=
  Position_ltb (start a) (end_ b) && Position_ltb (start b) (end_ a).

(** No two edits of the list, at different places in it, have overlapping
    ranges. *)
Fixpoint pairwiseNonOverlapping (edits : list TextEdit) : bool :=
  match edits with
  | [] => true
  | e :: rest =>
      forallb (fun e' => negb (rangesOverlap (range e) (range e'))) rest
      && pairwiseNonOverlapping rest
  end.

End LSP.

Import Slang LSP.

(** [Array.prototype.push] *)
Definition push {A : Type} (l : list A) (x : A) : list A := (l ++ [x])%list.

Definition doubleQuote : string := String (ascii_of_nat 34) EmptyString.

Definition newline : string := String (ascii_of_nat 10) EmptyString.

(** The collaborators of the fixes whose code is outside the two embedded
    files: version inference and the parser ([new Language(version).parse]),
    the range conversion of helpers/slang.ts, the printers of namespace.ts
    and the prefix setting of settings.ts. *)
Class Collaborators : Type := {
  inferSolidityVersion : TextDocument -> string;
  parse : string -> NonterminalKind -> string -> ParseOutput;
  slangToVSCodeRange : TextDocument -> TextRange -> Range;
  printNamespaceTemplate : Namespace -> string;
  getNamespaceId : string -> string -> string;
  printPublicGetter : string -> string -> string -> string -> string;
  toStorageStructName : string -> string;
  getNamespacePrefix : TextDocument -> string
}.

(** ** quickfixes.ts *)
Section Quickfixes.

Context {collaborators : Collaborators}.

Definition matchesVariable (variables : list StorageVariable) (text : string) : bool :=
  existsb (fun variable => String.eqb (name variable) text) variables.

Definition replaceVariables (blockCursor : Cursor) (variables : list StorageVariable)
    (edits : list TextEdit) (textDocument : TextDocument) : Result (bool * list TextEdit) :=
  let identifierCursor := spawn blockCursor in
  whileGoToNext (isTerminalWithKind Identifier) identifierCursor
    (fun identifierCursor '(needsReplacement, edits) =>
       match node identifierCursor with
       | NonterminalNode _ _ => Throw "AssertionError"
       | TerminalNode _ text =>
           if matchesVariable variables text then
             Ok (Continue
                   (true,
                    push edits {| range := slangToVSCodeRange textDocument (textRange identifierCursor);
                                  newText := "$." ++ text |}))
           else Ok (Continue (needsReplacement, edits))
       end)
    (false, edits).

Definition expectedLine (contractName : string) : string :=
  toStorageStructName contractName ++ " storage $ = _get"
  ++ toStorageStructName contractName ++ "();".

Definition storageGetterText (contractName indent : string) : string :=
  "{" ++ newline ++ indent ++ indent ++ expectedLine contractName ++ newline.

Definition addStorageGetter (contractName : string) (blockNode : Node)
    (functionBodyCursor : Cursor) (edits : list TextEdit) (textDocument : TextDocument)
    (indent : string) : Result (list TextEdit) :=
  if negb (includes (unparse blockNode) (expectedLine contractName)) then
    let openBraceCursor := spawn functionBodyCursor in
    let '(found, openBraceCursor) := goToNextTerminalWithKind OpenBrace openBraceCursor in
    _ <- assert found ;;
    Ok (push edits {| range := slangToVSCodeRange textDocument (textRange openBraceCursor);
                      newText := storageGetterText contractName indent |})
  else Ok edits.

Definition editNamespaceVariablesInFunctions (contractCursor : Cursor) (contractName : string)
    (variables : list StorageVariable) (textDocument : TextDocument) (edits : list TextEdit)
    : Result (list TextEdit) :=
  let cursor := spawn contractCursor in
  whileGoToNext (isNonterminalWithKinds [ConstructorDefinition; FunctionBody]) cursor
    (fun cursor edits =>
       let blockCursor := spawn cursor in
       let '(_, blockCursor) := goToNextNonterminalWithKind Block blockCursor in
       let blockNode := node blockCursor in
       _ <- assert (isNonterminal blockNode) ;;
       '(needsReplacement, edits) <- replaceVariables blockCursor variables edits textDocument ;;
       if needsReplacement : bool then
         edits <- addStorageGetter contractName blockNode blockCursor edits textDocument "    " ;;
         Ok (Continue edits)
       else Ok (Continue edits))
    edits.

Definition storageLocationTag (prefix contractName : string) : string :=
  "@custom:storage-location erc7201:" ++ getNamespaceId prefix contractName.

Definition getNamespaceStructEndRange (contractCursor : Cursor) (prefix contractName : string)
    : option TextRange :=
  let namespaceStructCursor := spawn contractCursor in
  let '(_, namespaceStructCursor) :=
    goToNextTerminalWithKind SingleLineNatSpecComment namespaceStructCursor in
  match node namespaceStructCursor with
  | TerminalNode _ natspecText =>
      if includes natspecText (storageLocationTag prefix contractName) then
        let namespaceStructEndCursor := spawn contractCursor in
        let '(_, namespaceStructEndCursor) :=
          goToNextTerminalWithKind CloseBrace namespaceStructEndCursor in
        Some (textRange namespaceStructEndCursor)
      else None
  | NonterminalNode _ _ => None
  end.

(** The two inner functions of the quick fix; they close over its
    arguments. *)
Definition editNewNamespace (prefix contractName : string) (variables : list StorageVariable)
    (edits : list TextEdit) : Result (list TextEdit) :=
  let namespace := {| namespaceContractName := contractName;
                      namespacePrefix := prefix;
                      namespaceVariables := variables |} in
  match variables with
  | [] => Throw "TypeError"
  | first :: others =>
      let edits := push edits {| range := variableRange first;
                                 newText := printNamespaceTemplate namespace |} in
      Ok (fold_left
            (fun edits variable =>
               push edits {| range := variableRange variable; newText := "" |})
            others edits)
  end.

Definition editExistingNamespace (contractName : string) (variables : list StorageVariable)
    (textDocument : TextDocument) (edits : list TextEdit) (structEndRange : TextRange)
    (indent : string) : list TextEdit :=
  fold_left
    (fun edits variable =>
       let edits :=
         match publicGetter variable with
         | Some getter =>
             push edits {| range := variableRange variable;
                           newText := printPublicGetter (name variable) (getterTypeName getter)
                                        (toStorageStructName contractName) indent |}
         | None =>
             push edits {| range := variableRange variable; newText := "" |}
         end in
       push edits {| range := slangToVSCodeRange textDocument structEndRange;
                     newText := indent ++ content variable ++ newline ++ indent ++ "}" |})
    variables edits.

(** The loop over the contract definitions of the document: what it leaves
    in [namespaceStructEndRange] and in [edits]. *)
Definition resolveContract (prefix contractName : string) (variables : list StorageVariable)
    (textDocument : TextDocument) : Result (option TextRange * list TextEdit) :=
  let version := inferSolidityVersion textDocument in
  let parseOutput := parse version SourceUnit (getText textDocument) in
  let cursor := createTreeCursor parseOutput in
  whileGoToNext (isNonterminalWithKind ContractDefinition) cursor
    (fun cursor '(namespaceStructEndRange, edits) =>
       let contractCursor := spawn cursor in
       let cursorNode := node contractCursor in
       _ <- assert (isNonterminal cursorNode) ;;
       let parseContract := parse version ContractDefinition (unparse cursorNode) in
       if negb (isValid parseContract) then Ok (Continue (namespaceStructEndRange, edits))
       else
         contractDefNameText <- contractDefName cursorNode ;;
         if negb (String.eqb contractDefNameText contractName) then
           Ok (Continue (namespaceStructEndRange, edits))
         else
           let namespaceStructEndRange :=
             getNamespaceStructEndRange contractCursor prefix contractName in
           edits <- editNamespaceVariablesInFunctions contractCursor contractName
                      variables textDocument edits ;;
           Ok (Break (namespaceStructEndRange, edits)))
    (None, []).

Definition getMoveAllVariablesToNamespaceQuickFix (fixesDiagnostics : list Diagnostic)
    (title prefix contractName : string) (variables : list StorageVariable)
    (textDocument : TextDocument) : Result (option CodeAction) :=
  '(namespaceStructEndRange, edits) <-
    resolveContract prefix contractName variables textDocument ;;
  if (List.length variables =? 0)%nat then Ok None
  else
    edits <- match namespaceStructEndRange with
             | None => editNewNamespace prefix contractName variables edits
             | Some structEndRange =>
                 Ok (editExistingNamespace contractName variables textDocument edits
                       structEndRange "    ")
             end ;;
    let workspaceEdit := {| changes := [ (uri textDocument, edits) ] |} in
    Ok (Some {| title := title;
                kind := QuickFix;
                edit := workspaceEdit;
                diagnostics := fixesDiagnostics |}).

End Quickfixes.

(** ** diagnostics.ts: the diagnostic codes *)
Module Diagnostics.

(** Modelled from the spec: the code constants of diagnostics.ts, which is
    not among the sources; section 6 lists the stable string codes. *)
Definition CONTRACT_CAN_BE_NAMESPACED : string := "contract-can-be-namespaced".
Definition NAMESPACE_ID_MISMATCH : string := "namespace-id-mismatch".
Definition NAMESPACE_ID_MISMATCH_HASH_COMMENT : string := "namespace-id-mismatch-hash-comment".
Definition NAMESPACE_HASH_MISMATCH : string := "namespace-hash-mismatch".
Definition NAMESPACE_STANDALONE_HASH_MISMATCH : string := "namespace-standalone-hash-mismatch".

(** The four mismatch kinds. *)
Definition mismatchCodes : list string :=
  [ NAMESPACE_ID_MISMATCH; NAMESPACE_ID_MISMATCH_HASH_COMMENT;
    NAMESPACE_HASH_MISMATCH; NAMESPACE_STANDALONE_HASH_MISMATCH ].

End Diagnostics.

Import Diagnostics.

(** ** server.ts: code actions *)
Section Server.

Context {collaborators : Collaborators}.

Definition getQuickFixReplacement (fixesDiagnostics : list Diagnostic) (title : string)
    (range : Range) (replacement : string) (textDocument : TextDocument) : CodeAction :=
  let textEdit := {| range := range; newText := replacement |} in
  let workspaceEdit := {| changes := [ (uri textDocument, [textEdit]) ] |} in
  {| title := title;
     kind := QuickFix;
     edit := workspaceEdit;
     diagnostics := fixesDiagnostics |}.

(** [String(diagnostic.data.replacement)]: reading a property of an absent
    datum throws, an absent property prints as "undefined". *)
Definition dataReplacement (diagnostic : Diagnostic) : Result string :=
  match data diagnostic with
  | NoData => Throw "TypeError"
  | ReplacementData replacement => Ok replacement
  | NamespaceableData _ => Ok "undefined"
  end.

(** The titles of the literal replacements, by code. *)
Definition replacementTitle (c : string) : string :=
  if String.eqb c NAMESPACE_ID_MISMATCH then "Replace namespace id"
  else if String.eqb c NAMESPACE_ID_MISMATCH_HASH_COMMENT then "Replace namespace comment"
  else if String.eqb c NAMESPACE_HASH_MISMATCH then "Recalculate hash using comment"
  else "Recalculate hash using expected id".

(** One iteration of the loop of [getCodeActions]: the body of the [for],
    as a function of the actions pushed so far.  The [params] argument of
    [getCodeActions] is not used by it and is left out.  For the
    can-be-namespaced kind a datum that is not a [NamespaceableContract]
    throws: without datum at the read of [name], and with a replacement
    datum inside the fix, where no contract is named [undefined] and
    [variables.length] is read from [undefined]. *)
Definition codeActionsStep (diagnostics : list Diagnostic) (textDocument : TextDocument)
    (diagnostic : Diagnostic) (codeActions : list CodeAction) : Result (list CodeAction) :=
  if String.eqb (code diagnostic) NAMESPACE_ID_MISMATCH then
    let title := "Replace namespace id" in
    let range := diagnosticRange diagnostic in
    replacement <- dataReplacement diagnostic ;;
    Ok (push codeActions (getQuickFixReplacement [diagnostic] title range replacement textDocument))
  else if String.eqb (code diagnostic) NAMESPACE_ID_MISMATCH_HASH_COMMENT then
    let title := "Replace namespace comment" in
    let range := diagnosticRange diagnostic in
    replacement <- dataReplacement diagnostic ;;
    Ok (push codeActions (getQuickFixReplacement [diagnostic] title range replacement textDocument))
  else if String.eqb (code diagnostic) NAMESPACE_HASH_MISMATCH then
    let title := "Recalculate hash using comment" in
    let range := diagnosticRange diagnostic in
    replacement <- dataReplacement diagnostic ;;
    Ok (push codeActions (getQuickFixReplacement [diagnostic] title range replacement textDocument))
  else if String.eqb (code diagnostic) NAMESPACE_STANDALONE_HASH_MISMATCH then
    let title := "Recalculate hash using expected id" in
    let range := diagnosticRange diagnostic in
    replacement <- dataReplacement diagnostic ;;
    Ok (push codeActions (getQuickFixReplacement [diagnostic] title range replacement textDocument))
  else if String.eqb (code diagnostic) CONTRACT_CAN_BE_NAMESPACED then
    let title := "Move all variables to namespace" in
    let prefix := getNamespacePrefix textDocument in
    match data diagnostic with
    | NamespaceableData contract =>
        quickfix <- getMoveAllVariablesToNamespaceQuickFix diagnostics title prefix
                      (contractName contract) (contractVariables contract) textDocument ;;
        match quickfix with
        | Some action => Ok (push codeActions action)
        | None => Ok codeActions
        end
    | _ => Throw "TypeError"
    end
  else Ok codeActions.

(** The [for] loop inside [try]: an exception leaves the loop, and what had
    been pushed until then is what [getCodeActions] returns. *)
Fixpoint codeActionsLoop (diagnostics : list Diagnostic) (textDocument : TextDocument)
    (remaining : list Diagnostic) (codeActions : list CodeAction) : list CodeAction :=
  match remaining with
  | [] => codeActions
  | diagnostic :: rest =>
      match codeActionsStep diagnostics textDocument diagnostic codeActions with
      | Ok codeActions' => codeActionsLoop diagnostics textDocument rest codeActions'
      | Throw _ => codeActions
      end
  end.

Definition getCodeActions (diagnostics : list Diagnostic) (textDocument : TextDocument)
    : list CodeAction :=
  codeActionsLoop diagnostics textDocument diagnostics [].

End Server.

(** ** Vocabulary of the statements

    What the cursor loops compute, said with the list functions of the
    standard library over the pre-order enumeration of a subtree. *)
Section Vocabulary.

Context {collaborators : Collaborators}.

(** The nodes strictly below a node, in document order. *)
Definition descendants (x : Located) : list Located := tl (preorder (fst x) (snd x)).

Definition locatedRange (x : Located) : TextRange :=
  {| Slang.start := snd x; Slang.end_ := snd x + String.length (unparse (fst x)) |}.

Definition terminalText (n : Node) : string :=
  match n with
  | TerminalNode _ text => text
  | NonterminalNode _ _ => ""
  end.

(** The first terminal of a kind below a node. *)
Definition firstTerminal (k : TerminalKind) (x : Located) : option Located :=
  find (fun y => isTerminalWithKind k (fst y)) (descendants x).

(** The identifier terminals below a block whose text is the name of one of
    the variables, and the edit each of them gets. *)
Definition matchingIdentifiers (variables : list StorageVariable) (block : Located)
    : list Located :=
  filter (fun y => isTerminalWithKind Identifier (fst y)
                   && matchesVariable variables (terminalText (fst y)))
         (descendants block).

Definition rewriteEdit (textDocument : TextDocument) (y : Located) : TextEdit :=
  {| range := slangToVSCodeRange textDocument (locatedRange y);
     newText := "$." ++ terminalText (fst y) |}.

(** The constructor definitions and function bodies below a contract, and
    the block of each: the first block below it, or the body itself when it
    has none. *)
Definition bodiesOf (contract : Located) : list Located :=
  filter (fun y => isNonterminalWithKinds [ConstructorDefinition; FunctionBody] (fst y))
         (descendants contract).

Definition blockOf (body : Located) : Located :=
  match find (fun y => isNonterminalWithKind Block (fst y)) (descendants body) with
  | Some block => block
  | None => body
  end.

Definition isEmpty {A : Type} (l : list A) : bool :=
  match l with [] => true | _ :: _ => false end.

(** A body is rewritten when its block has a matching identifier; it gets a
    storage-pointer declaration when moreover its text does not have the
    expected line yet. *)
Definition isRewritten (variables : list StorageVariable) (body : Located) : bool :=
  negb (isEmpty (matchingIdentifiers variables (blockOf body))).

Definition needsGetter (contractName : string) (variables : list StorageVariable)
    (body : Located) : bool :=
  isRewritten variables body
  && negb (includes (unparse (fst (blockOf body))) (expectedLine contractName)).

Definition getterEdit (textDocument : TextDocument) (contractName : string)
    (openBrace : Located) : TextEdit :=
  {| range := slangToVSCodeRange textDocument (locatedRange openBrace);
     newText := storageGetterText contractName "    " |}.

Definition getterEdits (textDocument : TextDocument) (contractName : string)
    (variables : list StorageVariable) (body : Located) : list TextEdit :=
  if needsGetter contractName variables body then
    match firstTerminal OpenBrace (blockOf body) with
    | Some openBrace => [getterEdit textDocument contractName openBrace]
    | None => []
    end
  else [].

Definition bodyEdits (textDocument : TextDocument) (contractName : string)
    (variables : list StorageVariable) (body : Located) : list TextEdit :=
  (map (rewriteEdit textDocument) (matchingIdentifiers variables (blockOf body))
   ++ getterEdits textDocument contractName variables body)%list.

(** Every body that gets a declaration has an opening brace to put it at
    (every block of a parsed document has one). *)
Definition bracesPresent (contractName : string) (variables : list StorageVariable)
    (contract : Located) : bool :=
  forallb (fun body =>
             implb (needsGetter contractName variables body)
                   (match firstTerminal OpenBrace (blockOf body) with
                    | Some _ => true
                    | None => false
                    end))
          (bodiesOf contract).

Definition isStorageGetterEdit (contractName : string) (e : TextEdit) : bool :=
  String.eqb (newText e) (storageGetterText contractName "    ").

(** The contract definitions of the current text, and the one the fix
    works on: the first that parses on its own and has the requested name. *)
Definition parsedRoot (textDocument : TextDocument) : Located :=
  (tree (parse (inferSolidityVersion textDocument) SourceUnit (getText textDocument)), 0).

Definition contractsOf (textDocument : TextDocument) : list Located :=
  filter (fun y => isNonterminalWithKind ContractDefinition (fst y))
         (descendants (parsedRoot textDocument)).

Definition parsesAlone (textDocument : TextDocument) (contract : Located) : bool :=
  isValid (parse (inferSolidityVersion textDocument) ContractDefinition (unparse (fst contract))).

Definition isNamed (contractName : string) (contract : Located) : bool :=
  match contractDefName (fst contract) with
  | Ok text => String.eqb text contractName
  | Throw _ => false
  end.

Definition targetContract (textDocument : TextDocument) (contractName : string)
    : option Located :=
  find (fun y => parsesAlone textDocument y && isNamed contractName y)
       (contractsOf textDocument).

(** Every contract definition that parses has its name terminal. *)
Definition contractsNamed (textDocument : TextDocument) : bool :=
  forallb (fun y => implb (parsesAlone textDocument y)
                          (match contractDefName (fst y) with
                           | Ok _ => true
                           | Throw _ => false
                           end))
          (contractsOf textDocument).

(** The edits of the two ways a namespace is written. *)
Definition newNamespaceEdits (prefix contractName : string)
    (first : StorageVariable) (others : list StorageVariable) : list TextEdit :=
  {| range := variableRange first;
     newText := printNamespaceTemplate
                  {| namespaceContractName := contractName;
                     namespacePrefix := prefix;
                     namespaceVariables := first :: others |} |}
  :: map (fun variable => {| range := variableRange variable; newText := "" |}) others.

Definition existingNamespaceEdits (textDocument : TextDocument) (contractName : string)
    (structEndRange : TextRange) (variables : list StorageVariable) : list TextEdit :=
  flat_map
    (fun variable =>
       [ {| range := variableRange variable;
            newText := match publicGetter variable with
                       | Some getter =>
                           printPublicGetter (name variable) (getterTypeName getter)
                             (toStorageStructName contractName) "    "
                       | None => ""
                       end |};
         {| range := slangToVSCodeRange textDocument structEndRange;
            newText := "    " ++ content variable ++ newline ++ "    " ++ "}" |} ])
    variables.

(** The edits of an action, over all the documents it changes. *)
Definition editsOf (action : CodeAction) : list TextEdit :=
  flat_map snd (changes (edit action)).

(** What the fix works with once the contract is resolved: the edits inside
    its function bodies and the end of its namespace struct, if it has one. *)
Definition functionEdits (textDocument : TextDocument) (contractName : string)
    (variables : list StorageVariable) : list TextEdit :=
  match targetContract textDocument contractName with
  | Some contract => flat_map (bodyEdits textDocument contractName variables) (bodiesOf contract)
  | None => []
  end.

Definition existingStructEnd (textDocument : TextDocument) (prefix contractName : string)
    : option TextRange :=
  match targetContract textDocument contractName with
  | Some contract =>
      getNamespaceStructEndRange (cursorAt (fst contract) (snd contract)) prefix contractName
  | None => None
  end.

(** The parsed document is well formed for the fix: contracts that parse
    have a name, and the bodies of the target contract that get a
    declaration have an opening brace. *)
Definition wellFormed (textDocument : TextDocument) (contractName : string)
    (variables : list StorageVariable) : bool :=
  contractsNamed textDocument
  && match targetContract textDocument contractName with
     | Some contract => bracesPresent contractName variables contract
     | None => true
     end.

Definition moveAction (fixesDiagnostics : list Diagnostic) (title : string)
    (textDocument : TextDocument) (edits : list TextEdit) : CodeAction :=
  {| title := title;
     kind := QuickFix;
     edit := {| changes := [ (uri textDocument, edits) ] |};
     diagnostics := fixesDiagnostics |}.

(** One step of the loop of [replaceVariables], at an identifier. *)
Definition rewriteStep (variables : list StorageVariable) (textDocument : TextDocument)
    (s : bool * list TextEdit) (y : Located) : bool * list TextEdit :=
  if matchesVariable variables (terminalText (fst y))
  then (true, push (snd s) (rewriteEdit textDocument y))
  else s.

(** Whether the synthesis for a diagnostic throws. *)
Definition stepThrows (diagnostics : list Diagnostic) (textDocument : TextDocument)
    (diagnostic : Diagnostic) : bool :=
  match codeActionsStep diagnostics textDocument diagnostic [] with
  | Ok _ => false
  | Throw _ => true
  end.

End Vocabulary.

(** ** Example documents

    Concrete collaborators and parsed documents on which the functions are
    evaluated. *)
Module Examples.

(** Modelled from the spec: [getNamespaceId] of namespace.ts (section 4.1,
    id = "<prefix>.storage.<ContractName>"). *)
Definition namespaceId (prefix contractName : string) : string :=
  prefix ++ ".storage." ++ contractName.

(** Modelled from the spec: [toStorageStructName] of namespace.ts (section
    4.4, the struct is named <ContractName>Storage). *)
Definition storageStructName (contractName : string) : string :=
  contractName ++ "Storage".

(** Modelled from the spec: [printNamespaceTemplate] of namespace.ts
    (section 4.4): id comment, struct with one field per variable, hash
    comment and constant, and the accessor of the storage pointer. *)
Definition namespaceTemplate (namespace : Namespace) : string :=
  let id := namespaceId (namespacePrefix namespace) (namespaceContractName namespace) in
  let struct := storageStructName (namespaceContractName namespace) in
  "/// @custom:storage-location erc7201:" ++ id ++ newline
  ++ "    struct " ++ struct ++ " {" ++ newline
  ++ concat "" (map (fun variable => "        " ++ content variable ++ newline)
                    (namespaceVariables namespace))
  ++ "    }" ++ newline ++ newline
  ++ "    // keccak256(abi.encode(uint256(keccak256(" ++ doubleQuote ++ id ++ doubleQuote
  ++ ")) - 1)) & ~bytes32(uint256(0xff))" ++ newline
  ++ "    bytes32 private constant LOCATION = "
  ++ NamespaceIdentity.erc7201Slot id ++ ";" ++ newline ++ newline
  ++ "    function _get" ++ struct ++ "() private pure returns (" ++ struct
  ++ " storage $) {" ++ newline
  ++ "        assembly { $.slot := LOCATION }" ++ newline
  ++ "    }".

(** Modelled from the spec: [printPublicGetter] of namespace.ts (section
    4.4, an external getter that obtains the storage pointer and returns
    the field). *)
Definition publicGetterText (name typeName struct indent : string) : string :=
  "function " ++ name ++ "() external view returns (" ++ typeName ++ ") {" ++ newline
  ++ indent ++ indent ++ struct ++ " storage $ = _get" ++ struct ++ "();" ++ newline
  ++ indent ++ indent ++ "return $." ++ name ++ ";" ++ newline
  ++ indent ++ "}".

(** [TextDocument.positionAt]: line and column of an offset. *)
Fixpoint positionAt (text : string) (offset line character : nat) : Position :=
  match offset, text with
  | S offset', String c text' =>
      if Ascii.eqb c (ascii_of_nat 10)
      then positionAt text' offset' (S line) 0
      else positionAt text' offset' line (S character)
  | _, _ => {| line := line; character := character |}
  end.

Definition toVSCodeRange (textDocument : TextDocument) (r : TextRange) : Range :=
  {| LSP.start := positionAt (getText textDocument) (Slang.start r) 0 0;
     LSP.end_ := positionAt (getText textDocument) (Slang.end_ r) 0 0 |}.

Definition keyword (text : string) : Node := TerminalNode (OtherTerminal "Keyword") text.
Definition symbol (text : string) : Node := TerminalNode (OtherTerminal "Symbol") text.
Definition space (text : string) : Node := TerminalNode (OtherTerminal "Whitespace") text.
Definition endOfLine : Node := TerminalNode (OtherTerminal "EndOfLine") newline.
Definition identifier (text : string) : Node := TerminalNode Identifier text.
Definition rule (name : string) (children : list Node) : Node :=
  NonterminalNode (OtherNonterminal name) children.

(** [uint256 <name>;] on a line of its own. *)
Definition stateVariable (name : string) : Node :=
  rule "StateVariableDefinition"
    [ space "    "; keyword "uint256"; space " "; identifier name; symbol ";"; endOfLine ].

(** [<name> += 1;] on a line of its own. *)
Definition increment (name : string) : Node :=
  rule "ExpressionStatement"
    [ space "        "; identifier name; space " "; symbol "+="; space " ";
      TerminalNode (OtherTerminal "DecimalLiteral") "1"; symbol ";"; endOfLine ].

(** [function <name>() public { <statements> }] *)
Definition functionDefinition (name : string) (statements : list Node) : Node :=
  rule "FunctionDefinition"
    [ space "    "; keyword "function"; space " "; identifier name;
      rule "ParametersDeclaration" [ symbol "("; symbol ")" ];
      space " "; rule "FunctionAttributes" [ keyword "public" ]; space " ";
      NonterminalNode FunctionBody
        [ NonterminalNode Block
            [ TerminalNode OpenBrace "{"; endOfLine;
              rule "Statements" statements;
              space "    "; TerminalNode CloseBrace "}"; endOfLine ] ] ].

(** [contract <name> { <members> }] *)
Definition contractDefinition (name : string) (members : list Node) : Node :=
  NonterminalNode ContractDefinition
    [ keyword "contract"; space " "; identifier name; space " ";
      TerminalNode OpenBrace "{"; endOfLine;
      rule "ContractMembers" members;
      TerminalNode CloseBrace "}"; endOfLine ].

Definition sourceUnit (contracts : list Node) : Node :=
  NonterminalNode SourceUnit [ rule "SourceUnitMembers" contracts ].

(** Scenario A of the specification: one variable, one function using it. *)
Definition scenarioA : Node :=
  sourceUnit
    [ contractDefinition "Foo"
        [ stateVariable "x"; functionDefinition "bump" [ increment "x" ] ] ].

(** [FooStorage storage $ = _getFooStorage();] on a line of its own. *)
Definition pointerDeclaration : Node :=
  rule "VariableDeclarationStatement"
    [ space "        "; identifier "FooStorage"; space " "; keyword "storage"; space " ";
      identifier "$"; space " "; symbol "="; space " "; identifier "_getFooStorage";
      symbol "("; symbol ")"; symbol ";"; endOfLine ].

(** A contract whose function already declares the storage pointer and still
    uses the free variable [y]. *)
Definition partlyMigrated : Node :=
  sourceUnit
    [ contractDefinition "Foo"
        [ stateVariable "y";
          functionDefinition "bump" [ pointerDeclaration; increment "y" ] ] ].

Definition natSpecLine (text : string) : list Node :=
  [ space "    "; TerminalNode SingleLineNatSpecComment text; endOfLine ].

(** [struct FooStorage { uint256 a; }] under its storage-location tag. *)
Definition namespaceStruct : Node :=
  rule "StructDefinition"
    (natSpecLine "/// @custom:storage-location erc7201:erc7201.storage.Foo"
     ++ [ space "    "; keyword "struct"; space " "; identifier "FooStorage"; space " ";
          TerminalNode OpenBrace "{"; endOfLine;
          rule "StructMembers"
            [ rule "StructMember"
                [ space "        "; keyword "uint256"; space " "; identifier "a";
                  symbol ";"; endOfLine ] ];
          space "    "; TerminalNode CloseBrace "}"; endOfLine ])%list.

(** A contract with its namespace struct and two variables outside of it. *)
Definition withNamespace : Node :=
  sourceUnit
    [ contractDefinition "Foo" [ namespaceStruct; stateVariable "x"; stateVariable "y" ] ].

(** The same contract with a function in front of the struct. *)
Definition functionFirst : Node :=
  sourceUnit
    [ contractDefinition "Foo"
        [ functionDefinition "bump" [ increment "x" ]; namespaceStruct; stateVariable "x" ] ].

(** A document without the contract [Foo]. *)
Definition otherContract : Node :=
  sourceUnit [ contractDefinition "Bar" [ stateVariable "z" ] ].

Definition knownDocuments : list Node :=
  [ scenarioA; partlyMigrated; withNamespace; functionFirst; otherContract ].

(** A parser by table: a text parses as the first node of the requested kind
    in the known documents that unparses to it, and is invalid otherwise. *)
Definition tableParse (version : string) (kind : NonterminalKind) (text : string)
    : ParseOutput :=
  match find (fun n => isNonterminalWithKind kind n && String.eqb (unparse n) text)
             (flat_map (fun d => map fst (preorder d 0)) knownDocuments) with
  | Some n => {| tree := n; isValid := true |}
  | None => {| tree := NonterminalNode kind [ TerminalNode (OtherTerminal "Unrecognized") text ];
               isValid := false |}
  end.

#[export] Instance exampleCollaborators : Collaborators := {
  inferSolidityVersion := fun _ => "0.8.20";
  parse := tableParse;
  slangToVSCodeRange := toVSCodeRange;
  printNamespaceTemplate := namespaceTemplate;
  getNamespaceId := namespaceId;
  printPublicGetter := publicGetterText;
  toStorageStructName := storageStructName;
  getNamespacePrefix := fun _ => "erc7201"
}.

Definition documentOf (n : Node) : TextDocument :=
  {| uri := "file:///Foo.sol"; getText := unparse n |}.

Definition position (l c : nat) : Position := {| line := l; character := c |}.

Definition span (l c l' c' : nat) : Range :=
  {| LSP.start := position l c; LSP.end_ := position l' c' |}.

(** The variable [uint256 <name>;] declared on line [l]. *)
Definition variableAt (name : string) (l : nat) : StorageVariable :=
  {| name := name;
     typeName := "uint256";
     content := "uint256 " ++ name ++ ";";
     variableRange := span l 4 l 14;
     publicGetter := None |}.

Definition moveTitle : string := "Move all variables to namespace".

(** The contract of scenario A and the body of its function. *)
Definition contractA : Located :=
  (contractDefinition "Foo" [ stateVariable "x"; functionDefinition "bump" [ increment "x" ] ], 0).

Definition bodyA : Located :=
  (NonterminalNode FunctionBody
     [ NonterminalNode Block
         [ TerminalNode OpenBrace "{"; endOfLine;
           rule "Statements" [ increment "x" ];
           space "    "; TerminalNode CloseBrace "}"; endOfLine ] ], 57).

(** The contract of [partlyMigrated] and the body of its function. *)
Definition contractM : Located :=
  (contractDefinition "Foo"
     [ stateVariable "y"; functionDefinition "bump" [ pointerDeclaration; increment "y" ] ], 0).

Definition bodyM : Located :=
  (NonterminalNode FunctionBody
     [ NonterminalNode Block
         [ TerminalNode OpenBrace "{"; endOfLine;
           rule "Statements" [ pointerDeclaration; increment "y" ];
           space "    "; TerminalNode CloseBrace "}"; endOfLine ] ], 57).

(** Two diagnostics as the client sends them back: a hash mismatch with its
    replacement, and an id mismatch whose datum was dropped on the way. *)
Definition hashMismatch : Diagnostic :=
  {| diagnosticRange := span 3 40 3 106;
     message := "Namespace hash does not match the id";
     code := Diagnostics.NAMESPACE_HASH_MISMATCH;
     data := ReplacementData
               "0xf2eacd0d8c40359509ad29d2b0d1d490123f1f694be8e963bad33c39476cd600" |}.

Definition withoutData : Diagnostic :=
  {| diagnosticRange := span 1 41 1 60;
     message := "Namespace id does not match the contract";
     code := Diagnostics.NAMESPACE_ID_MISMATCH;
     data := NoData |}.

End Examples.

(** ** server.ts: session state, settings and version inference *)

(** [Map<string, V>] with the operations the server uses. *)
Module JSMap.

Definition t (V : Type) : Type := list (string * V).

Definition empty {V : Type} : t V := [].

Fixpoint get {V : Type} (m : t V) (k : string) : option V :=
  match m with
  | [] => None
  | (k', v) :: m' => if String.eqb k' k then Some v else get m' k
  end.

Fixpoint set {V : Type} (m : t V) (k : string) (v : V) : t V :=
  match m with
  | [] => [(k, v)]
  | (k', v') :: m' => if String.eqb k' k then (k, v) :: m' else (k', v') :: set m' k v
  end.

Fixpoint delete {V : Type} (m : t V) (k : string) : t V :=
  match m with
  | [] => []
  | (k', v') :: m' => if String.eqb k' k then delete m' k else (k', v') :: delete m' k
  end.

End JSMap.

Module Session.

Record OpenZeppelinLSSettings : Type := {
  compilerVersion : string;
  namespacePrefix : string
}.

Definition defaultSettings : OpenZeppelinLSSettings :=
  {| compilerVersion := ""; namespacePrefix := "" |}.

(** The module-level variables of server.ts, the open documents of the
    document manager, and the number of diagnostic refreshes asked of the
    client. *)
Record ServerState : Type := {
  hasConfigurationCapability : bool;
  hasWorkspaceFolderCapability : bool;
  hasDiagnosticRelatedInformationCapability : bool;
  workspaceFolders : list string;
  globalSettings : OpenZeppelinLSSettings;
  documentSettings : JSMap.t OpenZeppelinLSSettings;
  documents : JSMap.t TextDocument;
  refreshes : nat
}.

Definition initialState : ServerState :=
  {| hasConfigurationCapability := false;
     hasWorkspaceFolderCapability := false;
     hasDiagnosticRelatedInformationCapability := false;
     workspaceFolders := [];
     globalSettings := defaultSettings;
     documentSettings := JSMap.empty;
     documents := JSMap.empty;
     refreshes := 0 |}.

Definition withDocumentSettings (st : ServerState)
    (m : JSMap.t OpenZeppelinLSSettings) : ServerState :=
  {| hasConfigurationCapability := hasConfigurationCapability st;
     hasWorkspaceFolderCapability := hasWorkspaceFolderCapability st;
     hasDiagnosticRelatedInformationCapability := hasDiagnosticRelatedInformationCapability st;
     workspaceFolders := workspaceFolders st;
     globalSettings := globalSettings st;
     documentSettings := m;
     documents := documents st;
     refreshes := refreshes st |}.

(** The capabilities of the client that [onInitialize] looks at; an absent
    member is [None]. *)
Record WorkspaceClientCapabilities : Type := {
  configuration : option bool;
  workspaceFoldersCapability : option bool
}.

Record PublishDiagnosticsClientCapabilities : Type := {
  relatedInformation : option bool
}.

Record TextDocumentClientCapabilities : Type := {
  publishDiagnostics : option PublishDiagnosticsClientCapabilities
}.

Record ClientCapabilities : Type := {
  workspace : option WorkspaceClientCapabilities;
  textDocument : option TextDocumentClientCapabilities
}.

Record WorkspaceFolder : Type := { folderUri : string; folderName : string }.

Record InitializeParams : Type := {
  capabilities : ClientCapabilities;
  paramsWorkspaceFolders : option (list WorkspaceFolder);
  rootUri : option string
}.

Inductive TextDocumentSyncKind : Type := SyncNone | SyncFull | SyncIncremental.

(** The capabilities of the server in the answer of [onInitialize];
    [workspaceFoldersSupported] is the optional [workspace] member. *)
Record InitializeResult : Type := {
  textDocumentSync : TextDocumentSyncKind;
  interFileDependencies : bool;
  workspaceDiagnostics : bool;
  codeActionKinds : list CodeActionKind;
  workspaceFoldersSupported : option bool
}.

(** A file system as the server reads it. *)
Inductive FsEntry : Type :=
| File (content : string)
| Directory.

Definition FileSystem : Type := string -> option FsEntry.

(** What the platform and the other modules give to this part of server.ts:
    [String.prototype.trim], [path.join], [URI.parse(_).fsPath], the first
    group of the two regular expressions when they match, the pragma helper
    of helpers/slang.ts and [Language.supportedVersions()]. *)
Class Platform : Type := {
  trim : string -> string;
  pathJoin : string -> string -> string;
  fsPath : string -> string;
  matchFoundrySolc : string -> option string;
  matchHardhatVersion : string -> option string;
  getHighestSupportedPragmaVersion : TextDocument -> option string;
  supportedVersions : list string
}.

(** Truthiness of a value that is a string or [undefined]/[null]. *)
Definition truthy (v : option string) : bool :=
  match v with
  | Some (String _ _) => true
  | _ => false
  end.

Definition optionTrue (v : option bool) : bool :=
  match v with
  | Some true => true
  | _ => false
  end.

(** [array.length == null]: the length of an array is a number. *)
Definition lengthIsNull {A : Type} (l : list A) : bool := false.

(** A promise is an object, and every object is truthy. *)
Definition promiseTruthy {A : Type} (promise : Result A) : bool := true.

Section Handlers.

Context {platform : Platform}.

Definition onInitialize (st : ServerState) (params : InitializeParams)
    : InitializeResult * ServerState :=
  let hasConfiguration :=
    match workspace (capabilities params) with
    | Some w => optionTrue (configuration w)
    | None => false
    end in
  let hasWorkspaceFolder :=
    match workspace (capabilities params) with
    | Some w => optionTrue (workspaceFoldersCapability w)
    | None => false
    end in
  let hasRelatedInformation :=
    match textDocument (capabilities params) with
    | Some t =>
        match publishDiagnostics t with
        | Some d => optionTrue (relatedInformation d)
        | None => false
        end
    | None => false
    end in
  let folders :=
    match paramsWorkspaceFolders params with
    | Some fs =>
        if hasWorkspaceFolder
        then fold_left (fun acc folder => push acc (fsPath (folderUri folder))) fs
               (workspaceFolders st)
        else workspaceFolders st
    | None => workspaceFolders st
    end in
  let folders :=
    if lengthIsNull folders
    then match rootUri params with
         | Some root => push folders (fsPath root)
         | None => folders
         end
    else folders in
  ({| textDocumentSync := SyncIncremental;
      interFileDependencies := false;
      workspaceDiagnostics := false;
      codeActionKinds := [QuickFix];
      workspaceFoldersSupported := if hasWorkspaceFolder then Some true else None |},
   {| hasConfigurationCapability := hasConfiguration;
      hasWorkspaceFolderCapability := hasWorkspaceFolder;
      hasDiagnosticRelatedInformationCapability := hasRelatedInformation;
      workspaceFolders := folders;
      globalSettings := globalSettings st;
      documentSettings := documentSettings st;
      documents := documents st;
      refreshes := refreshes st |}).

(** The [settings] of a configuration change: null, or an object whose
    [openzeppelinLS] member may be absent. *)
Inductive ChangedSettings : Type :=
| SettingsNull
| SettingsObject (openzeppelinLS : option OpenZeppelinLSSettings).

Definition onDidChangeConfiguration (st : ServerState) (settings : ChangedSettings)
    : Result ServerState :=
  st' <- (if hasConfigurationCapability st
          then Ok (withDocumentSettings st JSMap.empty)
          else match settings with
               | SettingsNull => Throw "TypeError"
               | SettingsObject member =>
                   Ok {| hasConfigurationCapability := hasConfigurationCapability st;
                         hasWorkspaceFolderCapability := hasWorkspaceFolderCapability st;
                         hasDiagnosticRelatedInformationCapability :=
                           hasDiagnosticRelatedInformationCapability st;
                         workspaceFolders := workspaceFolders st;
                         globalSettings := match member with
                                           | Some changed => changed
                                           | None => defaultSettings
                                           end;
                         documentSettings := documentSettings st;
                         documents := documents st;
                         refreshes := refreshes st |}
               end) ;;
  Ok {| hasConfigurationCapability := hasConfigurationCapability st';
        hasWorkspaceFolderCapability := hasWorkspaceFolderCapability st';
        hasDiagnosticRelatedInformationCapability :=
          hasDiagnosticRelatedInformationCapability st';
        workspaceFolders := workspaceFolders st';
        globalSettings := globalSettings st';
        documentSettings := documentSettings st';
        documents := documents st';
        refreshes := S (refreshes st') |}.

(** [getDocumentSettings]; [configurationOf] is what the client answers to
    [workspace/configuration] for a resource at the time of the call. *)
Definition getDocumentSettings (configurationOf : string -> OpenZeppelinLSSettings)
    (st : ServerState) (resource : string) : OpenZeppelinLSSettings * ServerState :=
  if negb (hasConfigurationCapability st) then (globalSettings st, st)
  else match JSMap.get (documentSettings st) resource with
       | Some result => (result, st)
       | None =>
           let result := configurationOf resource in
           (result, withDocumentSettings st (JSMap.set (documentSettings st) resource result))
       end.

(** [documents.onDidClose] *)
Definition onDidClose (st : ServerState) (documentUri : string) : ServerState :=
  withDocumentSettings st (JSMap.delete (documentSettings st) documentUri).

(** [exists]: [fs.access] succeeded. *)
Definition fileExists (fs : FileSystem) (file : string) : bool :=
  match fs file with
  | Some _ => true
  | None => false
  end.

(** [fs.readFile(path, 'utf8')] *)
Definition readFile (fs : FileSystem) (file : string) : Result string :=
  match fs file with
  | Some (File content) => Ok content
  | Some Directory => Throw "EISDIR"
  | None => Throw "ENOENT"
  end.

Fixpoint foundryFolders (fs : FileSystem) (folders : list string) : Result (option string) :=
  match folders with
  | [] => Ok None
  | workspaceFolder :: rest =>
      let foundryConfigPath := pathJoin workspaceFolder "foundry.toml" in
      if fileExists fs foundryConfigPath then
        foundryConfig <- readFile fs foundryConfigPath ;;
        let solidityVersion := matchFoundrySolc foundryConfig in
        if truthy solidityVersion then Ok solidityVersion
        else foundryFolders fs rest
      else foundryFolders fs rest
  end.

Definition inferSolidityVersionFromFoundry (fs : FileSystem) (st : ServerState)
    : Result (option string) :=
  if (0 <? List.length (workspaceFolders st))%nat
  then foundryFolders fs (workspaceFolders st)
  else Ok None.

Definition findVersionFromHardhatConfig (fs : FileSystem) (filePath : string)
    : Result (option string) :=
  if fileExists fs filePath then
    hardhatFile <- readFile fs filePath ;;
    let solidityVersion := matchHardhatVersion hardhatFile in
    if truthy solidityVersion then Ok solidityVersion else Ok None
  else Ok None.

(** The two calls of [findVersionFromHardhatConfig] are not awaited:
    [versionTs] and [versionJs] are promises, and returning one from the
    async function makes its outcome the outcome of the function. *)
Fixpoint hardhatFolders (fs : FileSystem) (folders : list string) : Result (option string) :=
  match folders with
  | [] => Ok None
  | workspaceFolder :: rest =>
      let hardhatConfigTsPath := pathJoin workspaceFolder "hardhat.config.ts" in
      let versionTs := findVersionFromHardhatConfig fs hardhatConfigTsPath in
      if promiseTruthy versionTs then versionTs
      else
        let hardhatConfigJsPath := pathJoin workspaceFolder "hardhat.config.js" in
        let versionJs := findVersionFromHardhatConfig fs hardhatConfigJsPath in
        if promiseTruthy versionJs then versionJs
        else hardhatFolders fs rest
  end.

Definition inferSolidityVersionFromHardhat (fs : FileSystem) (st : ServerState)
    : Result (option string) :=
  if (0 <? List.length (workspaceFolders st))%nat
  then hardhatFolders fs (workspaceFolders st)
  else Ok None.

(** [getSolidityVersion]: the version, or [None] for [undefined], and the
    state with what [getDocumentSettings] cached. *)
Definition getSolidityVersion (configurationOf : string -> OpenZeppelinLSSettings)
    (fs : FileSystem) (st : ServerState) (textDocument : TextDocument)
    : Result (option string * ServerState) :=
  let '(settings, st) := getDocumentSettings configurationOf st (uri textDocument) in
  let versionFromSetting := compilerVersion settings in
  if truthy (Some versionFromSetting)
     && (0 <? String.length (trim versionFromSetting))%nat
  then Ok (Some versionFromSetting, st)
  else
    versionFromFoundry <- inferSolidityVersionFromFoundry fs st ;;
    if truthy versionFromFoundry then Ok (versionFromFoundry, st)
    else
      versionFromHardhat <- inferSolidityVersionFromHardhat fs st ;;
      if truthy versionFromHardhat then Ok (versionFromHardhat, st)
      else
        let versionFromPragma := getHighestSupportedPragmaVersion textDocument in
        if truthy versionFromPragma then Ok (versionFromPragma, st)
        else Ok (last (map Some supportedVersions) None, st).

End Handlers.

(** [connection.onCodeAction]: the request names a document and carries the
    diagnostics of its context. *)
Definition onCodeAction {collaborators : Collaborators} (st : ServerState)
    (documentUri : string) (contextDiagnostics : list Diagnostic) : list CodeAction :=
  match JSMap.get (documents st) documentUri with
  | None => []
  | Some textDocument => getCodeActions contextDiagnostics textDocument
  end.

(** Vocabulary of the statements about the session. *)
Section SessionVocabulary.

Context {platform : Platform}.

(** The version setting in effect for a document, and whether it counts as
    set. *)
Definition settingVersion (configurationOf : string -> OpenZeppelinLSSettings)
    (st : ServerState) (textDocument : TextDocument) : string :=
  compilerVersion (fst (getDocumentSettings configurationOf st (uri textDocument))).

Definition settingIsSet (version : string) : bool :=
  truthy (Some version) && (0 <? String.length (trim version))%nat.

(** A folder the Foundry inference passes over: no foundry.toml, or one in
    which the expression finds nothing. *)
Definition foundrySkips (fs : FileSystem) (folder : string) : bool :=
  match fs (pathJoin folder "foundry.toml") with
  | None => true
  | Some (File content) => negb (truthy (matchFoundrySolc content))
  | Some Directory => false
  end.

(** What is left when no configuration file gives a version. *)
Definition fallbackVersion (textDocument : TextDocument) : option string :=
  if truthy (getHighestSupportedPragmaVersion textDocument)
  then getHighestSupportedPragmaVersion textDocument
  else last (map Some supportedVersions) None.

End SessionVocabulary.

End Session.

(** Concrete platform functions and a workspace for the statements about
    the session. *)
Module SessionExamples.

Import Session.

Definition reverse (s : string) : string :=
  string_of_list_ascii (rev (list_ascii_of_string s)).

Definition ofBytes (bytes : list nat) : string :=
  string_of_list_ascii (map ascii_of_nat bytes).

(** The white space and the line terminators of ECMAScript, which
    String.prototype.trim removes, in UTF-8: tab, line feed, vertical tab,
    form feed, carriage return, space, U+00A0, U+1680, U+2000 to U+200A,
    U+2028, U+2029, U+202F, U+205F, U+3000 and U+FEFF. *)
Definition whiteSpaces : list string :=
  map ofBytes
    ([ [9]; [10]; [11]; [12]; [13]; [32]; [194; 160]; [225; 154; 128] ]
     ++ map (fun last => [226; 128; last]) (seq 128 11)
     ++ [ [226; 128; 168]; [226; 128; 169]; [226; 128; 175]; [226; 129; 159];
          [227; 128; 128]; [239; 187; 191] ])%list.

(** The rest of [s] after one of the [patterns] at its start. *)
Definition stripOne (patterns : list string) (s : string) : option string :=
  match find (fun pattern => prefix pattern s) patterns with
  | Some pattern => Some (substring (String.length pattern)
                            (String.length s - String.length pattern) s)
  | None => None
  end.

Fixpoint stripAll (fuel : nat) (patterns : list string) (s : string) : string :=
  match fuel with
  | O => s
  | S fuel' =>
      match stripOne patterns s with
      | Some rest => stripAll fuel' patterns rest
      | None => s
      end
  end.

Definition trimStart (s : string) : string :=
  stripAll (String.length s) whiteSpaces s.

Definition trimEnd (s : string) : string :=
  reverse (stripAll (String.length s) (map reverse whiteSpaces) (reverse s)).

(** String.prototype.trim: removal of the white space at both ends. *)
Definition trimSpaces (s : string) : string :=
  trimEnd (trimStart s).

(** Stand-ins for the two regular expressions, by table. *)
Definition foundryTable (content : string) : option string :=
  if String.eqb content "solc = '0.8.24'" then Some "0.8.24" else None.

Definition hardhatTable (content : string) : option string :=
  if String.eqb content "solidity: { version: '0.8.19' }" then Some "0.8.19" else None.

#[export] Instance examplePlatform : Platform := {
  trim := trimSpaces;
  pathJoin := fun folder file => folder ++ "/" ++ file;
  fsPath := fun u => if prefix "file://" u then substring 7 (String.length u - 7) u else u;
  matchFoundrySolc := foundryTable;
  matchHardhatVersion := hardhatTable;
  getHighestSupportedPragmaVersion := fun _ => Some "0.8.20";
  supportedVersions := [ "0.8.25"; "0.8.26" ]
}.

(** A workspace of two folders: the first has only a hardhat.config.js, the
    second a foundry.toml and a hardhat.config.ts. *)
Definition workspaceFiles : FileSystem :=
  fun file =>
    if String.eqb file "/a/hardhat.config.js" then Some (File "solidity: { version: '0.8.19' }")
    else if String.eqb file "/b/foundry.toml" then Some (File "solc = '0.8.24'")
    else if String.eqb file "/b/hardhat.config.ts"
         then Some (File "solidity: { version: '0.8.19' }")
         else None.

(** The same workspace without the foundry.toml. *)
Definition hardhatOnlyFiles : FileSystem :=
  fun file =>
    if String.eqb file "/b/foundry.toml" then None else workspaceFiles file.

Definition capableClient : ClientCapabilities :=
  {| workspace := Some {| configuration := Some true;
                          workspaceFoldersCapability := Some true |};
     textDocument := None |}.

Definition twoFolders : InitializeParams :=
  {| capabilities := capableClient;
     paramsWorkspaceFolders := Some [ {| folderUri := "file:///a"; folderName := "a" |};
                                      {| folderUri := "file:///b"; folderName := "b" |} ];
     rootUri := Some "file:///a" |}.

(** A client that sends its root only. *)
Definition rootOnly : InitializeParams :=
  {| capabilities := {| workspace := None; textDocument := None |};
     paramsWorkspaceFolders := None;
     rootUri := Some "file:///b" |}.

Definition initialized : ServerState := snd (onInitialize initialState twoFolders).

Definition noVersionSetting (resource : string) : OpenZeppelinLSSettings :=
  {| compilerVersion := "  "; namespacePrefix := "erc7201" |}.

Definition versionSetting (resource : string) : OpenZeppelinLSSettings :=
  {| compilerVersion := " 0.8.22"; namespacePrefix := "erc7201" |}.

Definition someDocument : TextDocument :=
  {| uri := "file:///b/Foo.sol"; getText := "contract Foo {}" |}.

End SessionExamples.

(** ** Vocabulary of the further properties *)
Section MoreVocabulary.

Context {collaborators : Collaborators}.

(** A body that gets a declaration and has no opening brace for it. *)
Definition lacksBrace (contractName : string) (variables : list StorageVariable)
    (body : Located) : bool :=
  needsGetter contractName variables body
  && match firstTerminal OpenBrace (blockOf body) with
     | Some _ => false
     | None => true
     end.

(** An edit inside a function body is grounded in the text: it sits at a
    node the parser gave, whose text is the text of the parsed document at
    the range of the edit, and it either puts [$.] in front of an identifier
    that has the name of a variable or replaces an opening brace with the
    brace and the declaration. *)
Definition groundedEdit (textDocument : TextDocument) (contractName : string)
    (variables : list StorageVariable) (e : TextEdit) : Prop :=
  exists y : Located,
    In y (preorder (fst (parsedRoot textDocument)) 0)
    /\ range e = slangToVSCodeRange textDocument (locatedRange y)
    /\ substring (Slang.start (locatedRange y))
         (Slang.end_ (locatedRange y) - Slang.start (locatedRange y))
         (unparse (fst (parsedRoot textDocument)))
       = unparse (fst y)
    /\ ((exists text,
            fst y = TerminalNode Identifier text
            /\ In text (map name variables)
            /\ newText e = "$." ++ text)
        \/ (isTerminalWithKind OpenBrace (fst y) = true
            /\ newText e = storageGetterText contractName "    ")).

(** The codes [getCodeActions] has a branch for. *)
Definition knownCode (c : string) : bool :=
  existsb (String.eqb c) (CONTRACT_CAN_BE_NAMESPACED :: mismatchCodes).

(** What the synthesis for one diagnostic pushes, when it does not throw. *)
Definition pushedBy (diagnostics : list Diagnostic) (textDocument : TextDocument)
    (diagnostic : Diagnostic) : list CodeAction :=
  match codeActionsStep diagnostics textDocument diagnostic [] with
  | Ok pushed => pushed
  | Throw _ => []
  end.

(** The diagnostics in front of the first one whose synthesis throws. *)
Fixpoint beforeFailure (diagnostics : list Diagnostic) (textDocument : TextDocument)
    (remaining : list Diagnostic) : list Diagnostic :=
  match remaining with
  | [] => []
  | d :: rest =>
      if stepThrows diagnostics textDocument d then []
      else d :: beforeFailure diagnostics textDocument rest
  end.

(** What an action pushed for a diagnostic looks like. *)
Definition actionFor (diagnostics : list Diagnostic) (textDocument : TextDocument)
    (diagnostic : Diagnostic) (action : CodeAction) : Prop :=
  (In (code diagnostic) mismatchCodes
   /\ exists replacement,
        action = {| title := replacementTitle (code diagnostic);
                    kind := QuickFix;
                    edit := {| changes := [ (uri textDocument,
                                             [ {| range := diagnosticRange diagnostic;
                                                  newText := replacement |} ]) ] |};
                    diagnostics := [diagnostic] |})
  \/ (code diagnostic = CONTRACT_CAN_BE_NAMESPACED
      /\ exists edits,
           action = moveAction diagnostics "Move all variables to namespace"
                      textDocument edits).

End MoreVocabulary.

(** Further example documents. *)
Module MoreExamples.

Import Examples.

(** A struct tagged for the contract [FooBar]. *)
Definition otherStruct : Node :=
  rule "StructDefinition"
    (natSpecLine "/// @custom:storage-location erc7201:erc7201.storage.FooBar"
     ++ [ space "    "; keyword "struct"; space " "; identifier "FooBarStorage"; space " ";
          TerminalNode OpenBrace "{"; endOfLine;
          space "    "; TerminalNode CloseBrace "}"; endOfLine ])%list.

(** The children of a contract [Foo] that holds that struct and a variable. *)
Definition mistakenChildren : list Node :=
  [ keyword "contract"; space " "; identifier "Foo"; space " ";
    TerminalNode OpenBrace "{"; endOfLine;
    rule "ContractMembers" [ otherStruct; stateVariable "x" ];
    TerminalNode CloseBrace "}"; endOfLine ].

(** The children of a contract [Foo] whose first NatSpec comment is a note
    and whose second one tags the namespace struct. *)
Definition noteFirstChildren : list Node :=
  [ keyword "contract"; space " "; identifier "Foo"; space " ";
    TerminalNode OpenBrace "{"; endOfLine;
    rule "ContractMembers"
      [ rule "StateVariableDefinition"
          (natSpecLine "/// the counter"
           ++ [ space "    "; keyword "uint256"; space " "; identifier "x"; symbol ";";
                endOfLine ])%list;
        namespaceStruct ];
    TerminalNode CloseBrace "}"; endOfLine ].






(** A can-be-namespaced diagnostic that has no variable to move. *)
Definition nothingToMove : Diagnostic :=
  {| diagnosticRange := span 0 9 0 12;
     message := "Contract can be namespaced";
     code := Diagnostics.CONTRACT_CAN_BE_NAMESPACED;
     data := NamespaceableData {| contractName := "Foo"; contractVariables := [] |} |}.

End MoreExamples.

(** ** Properties of the cursor loops *)
Section CursorLemmas.

Lemma length_append (s t : string) :
  String.length (s ++ t) = String.length s + String.length t.
Proof.
  induction s as [|c s IH]; simpl; [reflexivity | rewrite IH; reflexivity].
Qed.

Lemma prefix_append (p s : string) :
  prefix p s = true <-> exists t, s = p ++ t.
Proof.
  revert s. induction p as [|a p IH]; intros s.
  - split; [intros _; exists s; reflexivity | intros _; destruct s; reflexivity].
  - destruct s as [|b s]; simpl.
    + split; [discriminate | intros [t H]; discriminate H].
    + destruct (ascii_dec a b) as [->|Hab].
      * rewrite IH. split; intros [t H]; exists t.
        -- rewrite H. reflexivity.
        -- inversion H. reflexivity.
      * split; [discriminate | intros [t H]; inversion H; congruence].
Qed.

(** [includes] is containment as a substring. *)
Lemma includes_spec (s sub : string) :
  includes s sub = true <-> exists before after, s = before ++ sub ++ after.
Proof.
  induction s as [|c s IH].
  - cbn [includes]. rewrite orb_false_r, prefix_append. split.
    + intros [t H]. exists "", t. exact H.
    + intros [before [after H]].
      destruct before as [|b before]; [exists after; exact H | discriminate H].
  - cbn [includes]. rewrite orb_true_iff, prefix_append, IH. split.
    + intros [[t H]|[before [after H]]].
      * exists "", t. exact H.
      * exists (String c before), after. simpl. rewrite H. reflexivity.
    + intros [before [after H]]. destruct before as [|b before].
      * left. exists after. exact H.
      * right. exists before, after. inversion H. reflexivity.
Qed.

Lemma append_assoc (a b c : string) : (a ++ b) ++ c = a ++ b ++ c.
Proof.
  induction a as [|x a IH]; simpl; [reflexivity | rewrite IH; reflexivity].
Qed.





Lemma preorder_nonterminal (k : NonterminalKind) (cs : list Node) (off : nat) :
  preorder (NonterminalNode k cs) off = (NonterminalNode k cs, off) :: preorderAll cs off.
Proof.
  reflexivity.
Qed.

Lemma preorder_head (n : Node) (off : nat) :
  preorder n off = (n, off) :: descendants (n, off).
Proof.
  unfold descendants. destruct n; reflexivity.
Qed.


Lemma substring_full (s : string) : substring 0 (String.length s) s = s.
Proof.
  induction s as [|c s IH]; simpl; [reflexivity | rewrite IH; reflexivity].
Qed.

Lemma substring_append_left (a b : string) :
  forall k n, k + n <= String.length a -> substring k n (a ++ b) = substring k n a.
Proof.
  induction a as [|c a IH]; intros k n Hle; simpl in Hle.
  - assert (k = 0) by lia. assert (n = 0) by lia. subst. destruct b; reflexivity.
  - destruct k as [|k]; simpl.
    + destruct n as [|n]; [reflexivity|]. rewrite IH by lia. reflexivity.
    + apply IH. lia.
Qed.

Lemma substring_append_right (a b : string) :
  forall k n, substring (String.length a + k) n (a ++ b) = substring k n b.
Proof.
  induction a as [|c a IH]; intros k n; simpl; [reflexivity | apply IH].
Qed.

Lemma unparse_nonterminal (k : NonterminalKind) (cs : list Node) :
  unparse (NonterminalNode k cs) = unparseAll cs.
Proof. reflexivity. Qed.

(** The text range of every node a cursor visits lies inside the range of
    the node the cursor was spawned at, and delimits the text of the node
    there. *)
Lemma preorder_text (n : Node) :
  forall off m off',
    In (m, off') (preorder n off) ->
    off <= off'
    /\ off' + String.length (unparse m) <= off + String.length (unparse n)
    /\ substring (off' - off) (String.length (unparse m)) (unparse n) = unparse m.
Proof.
  induction n as [k text|k cs IH] using Node_induction; intros off m off' Hin.
  - destruct Hin as [Heq|[]]. inversion Heq; subst.
    rewrite Nat.sub_diag, substring_full. repeat split; lia.
  - rewrite preorder_nonterminal in Hin. destruct Hin as [Heq|Hin].
    + inversion Heq; subst.
      rewrite Nat.sub_diag, substring_full. repeat split; lia.
    + rewrite unparse_nonterminal. clear k.
      revert off Hin. induction cs as [|c cs IHcs]; intros off Hin; [destruct Hin|].
      inversion IH as [|? ? Hc Hcs]; subst.
      simpl in Hin. cbn [unparseAll]. rewrite length_append.
      apply in_app_or in Hin. destruct Hin as [Hin|Hin].
      * destruct (Hc off m off' Hin) as [H1 [H2 H3]].
        split; [lia|]. split; [lia|].
        rewrite substring_append_left by lia. exact H3.
      * destruct (IHcs Hcs _ Hin) as [H1 [H2 H3]].
        split; [lia|]. split; [lia|].
        replace (off' - off)
          with (String.length (unparse c) + (off' - (off + String.length (unparse c))))
          by lia.
        rewrite substring_append_right. exact H3.
Qed.



(** One turn of a [while (cursor.goToNext...)] loop. *)
Lemma whilePending_seek {S : Type} (p : Node -> bool) (root : Located)
    (body : Cursor -> S -> Result (Control S)) (l : list Located) (s : S) :
  whilePending p root l body s
  = match seek p l with
    | Some ((n, off), rest) =>
        r <- body (mkCursor n off (fst root) (snd root) rest false) s ;;
        match r with
        | Continue s' => whilePending p root rest body s'
        | Break s' => Ok s'
        end
    | None => Ok s
    end.
Proof.
  induction l as [|[n off] l IH]; simpl; [reflexivity|].
  destruct (p n); [reflexivity | exact IH].
Qed.

Lemma whileGoToNext_unfold {S : Type} (p : Node -> bool) (c : Cursor)
    (body : Cursor -> S -> Result (Control S)) (s : S) :
  whileGoToNext p c body s
  = match goToNextMatching p c with
    | (true, c') =>
        r <- body c' s ;;
        match r with
        | Continue s' => whileGoToNext p c' body s'
        | Break s' => Ok s'
        end
    | (false, _) => Ok s
    end.
Proof.
  unfold whileGoToNext, goToNextMatching.
  destruct (isCompleted c); [reflexivity|].
  rewrite whilePending_seek.
  destruct (seek p (pending c)) as [[[n off] rest]|]; reflexivity.
Qed.

Lemma seek_find (p : Node -> bool) (l : list Located) :
  option_map fst (seek p l) = find (fun y => p (fst y)) l.
Proof.
  induction l as [|x l IH]; simpl; [reflexivity|].
  destruct (p (fst x)); [reflexivity | exact IH].
Qed.

Lemma seek_none (p : Node -> bool) (l : list Located) :
  seek p l = None -> find (fun y => p (fst y)) l = None.
Proof.
  intros H. rewrite <- seek_find, H. reflexivity.
Qed.

Lemma seek_some (p : Node -> bool) (l : list Located) (x : Located) (rest : list Located) :
  seek p l = Some (x, rest) -> find (fun y => p (fst y)) l = Some x /\ p (fst x) = true.
Proof.
  intros H. split.
  - rewrite <- seek_find, H. reflexivity.
  - induction l as [|y l IH]; simpl in H; [discriminate|].
    destruct (p (fst y)) eqn:E.
    + inversion H; subst. exact E.
    + apply IH, H.
Qed.

(** A loop whose body always goes on, and depends on the cursor only
    through the node it is at, is a fold over the pending nodes that
    satisfy the condition. *)
Lemma whilePending_fold {S : Type} (p : Node -> bool) (root : Located)
    (body : Cursor -> S -> Result (Control S)) (f : S -> Located -> S)
    (l : list Located) :
  (forall n off rest s, In (n, off) l -> p n = true ->
     body (mkCursor n off (fst root) (snd root) rest false) s = Ok (Continue (f s (n, off)))) ->
  forall s, whilePending p root l body s
            = Ok (fold_left f (filter (fun y => p (fst y)) l) s).
Proof.
  induction l as [|[n off] l IH]; intros Hbody s; simpl; [reflexivity|].
  destruct (p n) eqn:E; simpl.
  - rewrite Hbody by (simpl; auto). simpl.
    apply IH. intros; apply Hbody; simpl; auto.
  - apply IH. intros; apply Hbody; simpl; auto.
Qed.

Lemma goToNextMatching_at (p : Node -> bool) (n : Node) (off : nat) :
  let r := goToNextMatching p (cursorAt n off) in
  fst r = (match find (fun y => p (fst y)) (descendants (n, off)) with
           | Some _ => true
           | None => false
           end)
  /\ (node (snd r), textOffset (snd r))
     = match find (fun y => p (fst y)) (descendants (n, off)) with
       | Some y => y
       | None => (n, off)
       end.
Proof.
  unfold goToNextMatching, cursorAt, descendants. simpl.
  destruct (seek p (tl (preorder n off))) as [[[n' off'] rest]|] eqn:E.
  - apply seek_some in E. destruct E as [E _]. rewrite E. simpl. split; reflexivity.
  - apply seek_none in E. rewrite E. simpl. split; reflexivity.
Qed.

Lemma fold_left_app_flat_map {A B : Type} (g : B -> list A) (l : list B) :
  forall acc, fold_left (fun acc y => (acc ++ g y)%list) l acc = (acc ++ flat_map g l)%list.
Proof.
  induction l as [|y l IH]; intros acc; simpl.
  - rewrite app_nil_r. reflexivity.
  - rewrite IH, <- app_assoc. reflexivity.
Qed.

Lemma fold_left_push_map {A B : Type} (g : B -> A) (l : list B) :
  forall acc, fold_left (fun acc y => push acc (g y)) l acc = (acc ++ map g l)%list.
Proof.
  induction l as [|y l IH]; intros acc; simpl.
  - rewrite app_nil_r. reflexivity.
  - rewrite IH. unfold push. rewrite <- app_assoc. reflexivity.
Qed.

End CursorLemmas.

(** ** What the functions of quickfixes.ts compute *)
Section QuickfixLemmas.

Context {collaborators : Collaborators}.

Lemma rewriteStep_fold variables textDocument (l : list Located) :
  forall needs edits,
    fold_left (rewriteStep variables textDocument)
      (filter (fun y => isTerminalWithKind Identifier (fst y)) l) (needs, edits)
    = (needs || negb (isEmpty
                        (filter (fun y => isTerminalWithKind Identifier (fst y)
                                          && matchesVariable variables (terminalText (fst y))) l)),
       (edits ++ map (rewriteEdit textDocument)
                  (filter (fun y => isTerminalWithKind Identifier (fst y)
                                    && matchesVariable variables (terminalText (fst y))) l))%list).
Proof.
  induction l as [|y l IH]; intros needs edits; simpl.
  - rewrite orb_false_r, app_nil_r. reflexivity.
  - destruct (isTerminalWithKind Identifier (fst y)); simpl; [|apply IH].
    unfold rewriteStep at 2.
    destruct (matchesVariable variables (terminalText (fst y))); simpl.
    + rewrite IH. unfold push. rewrite <- app_assoc, orb_true_r. reflexivity.
    + apply IH.
Qed.

Lemma replaceVariables_spec (blockCursor : Cursor) variables edits textDocument :
  replaceVariables blockCursor variables edits textDocument
  = Ok (negb (isEmpty (matchingIdentifiers variables (node blockCursor, textOffset blockCursor))),
        (edits ++ map (rewriteEdit textDocument)
                   (matchingIdentifiers variables (node blockCursor, textOffset blockCursor)))%list).
Proof.
  unfold replaceVariables, whileGoToNext, spawn, cursorAt. simpl.
  rewrite (whilePending_fold _ _ _ (rewriteStep variables textDocument)).
  - rewrite rewriteStep_fold. reflexivity.
  - intros n off rest [needs eds] _ Hp. simpl.
    destruct n as [k text|k cs]; [|discriminate Hp].
    unfold rewriteStep, rewriteEdit, textRange, locatedRange. simpl.
    destruct (matchesVariable variables text); reflexivity.
Qed.


Lemma addStorageGetter_spec contractName (blockCursor : Cursor) edits textDocument :
  addStorageGetter contractName (node blockCursor) blockCursor edits textDocument "    "
  = if includes (unparse (node blockCursor)) (expectedLine contractName) then Ok edits
    else match firstTerminal OpenBrace (node blockCursor, textOffset blockCursor) with
         | Some openBrace => Ok (push edits (getterEdit textDocument contractName openBrace))
         | None => Throw "AssertionError"
         end.
Proof.
  unfold addStorageGetter, goToNextTerminalWithKind, spawn, firstTerminal.
  destruct (includes (unparse (node blockCursor)) (expectedLine contractName)); simpl;
    [reflexivity|].
  pose proof (goToNextMatching_at (isTerminalWithKind OpenBrace)
                (node blockCursor) (textOffset blockCursor)) as H.
  simpl in H.
  destruct (goToNextMatching (isTerminalWithKind OpenBrace)
              (cursorAt (node blockCursor) (textOffset blockCursor))) as [found c].
  simpl in H. destruct H as [Hf Hc].
  destruct (find (fun y : Node * nat => isTerminalWithKind OpenBrace (fst y))
              (descendants (node blockCursor, textOffset blockCursor))) as [ob|].
  - subst found. simpl. unfold getterEdit, textRange, locatedRange. rewrite <- Hc. reflexivity.
  - subst found. reflexivity.
Qed.

(** The body of the loop of [editNamespaceVariablesInFunctions], at one
    constructor definition or function body. *)
Lemma functionBody_step contractName variables textDocument
    (n : Node) (off : nat) (root : Located) (rest : list Located) (edits : list TextEdit) :
  isNonterminalWithKinds [ConstructorDefinition; FunctionBody] n = true ->
  implb (needsGetter contractName variables (n, off))
        (match firstTerminal OpenBrace (blockOf (n, off)) with
         | Some _ => true
         | None => false
         end) = true ->
  (let cursor := mkCursor n off (fst root) (snd root) rest false in
   let blockCursor := spawn cursor in
   let '(_, blockCursor) := goToNextNonterminalWithKind Block blockCursor in
   let blockNode := node blockCursor in
   _ <- assert (isNonterminal blockNode) ;;
   '(needsReplacement, edits) <- replaceVariables blockCursor variables edits textDocument ;;
   if needsReplacement : bool then
     edits <- addStorageGetter contractName blockNode blockCursor edits textDocument "    " ;;
     Ok (Continue edits)
   else Ok (Continue edits))
  = Ok (Continue (edits ++ bodyEdits textDocument contractName variables (n, off))%list).
Proof.
  intros Hkind Hbrace. cbv zeta. unfold goToNextNonterminalWithKind, spawn. simpl node. simpl textOffset.
  pose proof (goToNextMatching_at (isNonterminalWithKind Block) n off) as H.
  simpl in H.
  destruct (goToNextMatching (isNonterminalWithKind Block) (cursorAt n off)) as [found bc].
  simpl in H. destruct H as [_ Hc].
  assert (Hblock : (node bc, textOffset bc) = blockOf (n, off)) by exact Hc.
  assert (Hnt : isNonterminal (node bc) = true).
  { unfold blockOf in Hblock.
    destruct (find (fun y => isNonterminalWithKind Block (fst y)) (descendants (n, off)))
      as [b|] eqn:E.
    - apply find_some in E. destruct E as [_ E].
      replace (node bc) with (fst b) by (rewrite <- Hblock; reflexivity).
      destruct (fst b); [discriminate E | reflexivity].
    - replace (node bc) with n by (inversion Hblock; reflexivity).
      destruct n; [discriminate Hkind | reflexivity]. }
  rewrite Hnt. simpl.
  rewrite replaceVariables_spec. simpl.
  rewrite addStorageGetter_spec.
  unfold bodyEdits, getterEdits, needsGetter, isRewritten in *.
  rewrite Hblock in *.
  destruct (isEmpty (matchingIdentifiers variables (blockOf (n, off)))); simpl in *.
  - rewrite app_nil_r. reflexivity.
  - replace (node bc) with (fst (blockOf (n, off))) by (rewrite <- Hblock; reflexivity).
    destruct (includes (unparse (fst (blockOf (n, off)))) (expectedLine contractName)); simpl in *.
    + rewrite app_nil_r. reflexivity.
    + destruct (firstTerminal OpenBrace (blockOf (n, off))); [|discriminate Hbrace].
      simpl. unfold push. rewrite <- app_assoc. reflexivity.
Qed.

Lemma editNamespaceVariablesInFunctions_spec (contractCursor : Cursor) contractName
    variables textDocument edits :
  bracesPresent contractName variables (node contractCursor, textOffset contractCursor) = true ->
  editNamespaceVariablesInFunctions contractCursor contractName variables textDocument edits
  = Ok (edits ++ flat_map (bodyEdits textDocument contractName variables)
                   (bodiesOf (node contractCursor, textOffset contractCursor)))%list.
Proof.
  intros Hbraces.
  unfold editNamespaceVariablesInFunctions, whileGoToNext, spawn, cursorAt. simpl.
  rewrite (whilePending_fold _ _ _
             (fun acc y => (acc ++ bodyEdits textDocument contractName variables y)%list)).
  - rewrite fold_left_app_flat_map. reflexivity.
  - intros n off rest s Hin Hp.
    apply (functionBody_step contractName variables textDocument n off
             (node contractCursor, textOffset contractCursor) rest s Hp).
    unfold bracesPresent in Hbraces. rewrite forallb_forall in Hbraces.
    apply (Hbraces (n, off)). unfold bodiesOf. apply filter_In. split; [exact Hin | exact Hp].
Qed.


Lemma getNamespaceStructEndRange_spec (k : NonterminalKind) (children : list Node) (off : nat)
    (prefix contractName : string) :
  let contract := (NonterminalNode k children, off) in
  getNamespaceStructEndRange (cursorAt (fst contract) (snd contract)) prefix contractName
  = match firstTerminal SingleLineNatSpecComment contract with
    | Some comment =>
        if includes (terminalText (fst comment)) (storageLocationTag prefix contractName)
        then Some (locatedRange (match firstTerminal CloseBrace contract with
                                 | Some closeBrace => closeBrace
                                 | None => contract
                                 end))
        else None
    | None => None
    end.
Proof.
  cbv zeta. unfold getNamespaceStructEndRange, goToNextTerminalWithKind, spawn, firstTerminal.
  change (node (cursorAt (fst (NonterminalNode k children, off))
                         (snd (NonterminalNode k children, off))))
    with (NonterminalNode k children).
  change (textOffset (cursorAt (fst (NonterminalNode k children, off))
                               (snd (NonterminalNode k children, off))))
    with off.
  pose proof (goToNextMatching_at (isTerminalWithKind SingleLineNatSpecComment)
                (NonterminalNode k children) off) as H1.
  pose proof (goToNextMatching_at (isTerminalWithKind CloseBrace)
                (NonterminalNode k children) off) as H2.
  cbv zeta in H1, H2.
  destruct (goToNextMatching (isTerminalWithKind SingleLineNatSpecComment)
              (cursorAt (NonterminalNode k children) off)) as [f1 c1].
  destruct (goToNextMatching (isTerminalWithKind CloseBrace)
              (cursorAt (NonterminalNode k children) off)) as [f2 c2].
  simpl fst in H1, H2. simpl snd in H1, H2.
  destruct H1 as [_ H1]. destruct H2 as [_ H2].
  destruct (find (fun y : Node * nat => isTerminalWithKind SingleLineNatSpecComment (fst y))
              (descendants (NonterminalNode k children, off))) as [comment|] eqn:E1.
  - apply find_some in E1. destruct E1 as [_ E1].
    replace (node c1) with (fst comment) by (rewrite <- H1; reflexivity).
    destruct (fst comment) as [k' text|k' cs]; [|discriminate E1].
    simpl terminalText.
    destruct (includes text (storageLocationTag prefix contractName)); [|reflexivity].
    f_equal. unfold textRange, locatedRange.
    destruct (find (fun y : Node * nat => isTerminalWithKind CloseBrace (fst y))
                (descendants (NonterminalNode k children, off))) as [cb|];
      rewrite <- H2; reflexivity.
  - replace (node c1) with (NonterminalNode k children) by (inversion H1; reflexivity).
    reflexivity.
Qed.

(** The loop over the contract definitions stops at the target contract. *)
Lemma resolveContract_loop prefix contractName variables textDocument (root : Located)
    (l : list Located) :
  forallb (fun y => implb (parsesAlone textDocument y)
                          (match contractDefName (fst y) with
                           | Ok _ => true
                           | Throw _ => false
                           end))
          (filter (fun y => isNonterminalWithKind ContractDefinition (fst y)) l) = true ->
  whilePending (isNonterminalWithKind ContractDefinition) root l
    (fun cursor '(namespaceStructEndRange, edits) =>
       let contractCursor := spawn cursor in
       let cursorNode := node contractCursor in
       _ <- assert (isNonterminal cursorNode) ;;
       let parseContract :=
         parse (inferSolidityVersion textDocument) ContractDefinition (unparse cursorNode) in
       if negb (isValid parseContract) then Ok (Continue (namespaceStructEndRange, edits))
       else
         contractDefNameText <- contractDefName cursorNode ;;
         if negb (String.eqb contractDefNameText contractName) then
           Ok (Continue (namespaceStructEndRange, edits))
         else
           let namespaceStructEndRange :=
             getNamespaceStructEndRange contractCursor prefix contractName in
           edits <- editNamespaceVariablesInFunctions contractCursor contractName
                      variables textDocument edits ;;
           Ok (Break (namespaceStructEndRange, edits)))
    (None, [])
  = match find (fun y => parsesAlone textDocument y && isNamed contractName y)
               (filter (fun y => isNonterminalWithKind ContractDefinition (fst y)) l) with
    | None => Ok (None, [])
    | Some contract =>
        edits <- editNamespaceVariablesInFunctions (cursorAt (fst contract) (snd contract))
                   contractName variables textDocument [] ;;
        Ok (getNamespaceStructEndRange (cursorAt (fst contract) (snd contract))
              prefix contractName, edits)
    end.
Proof.
  induction l as [|[n off] l IH]; intros Hnamed; simpl; [reflexivity|].
  simpl in Hnamed.
  destruct (isNonterminalWithKind ContractDefinition n) eqn:Hk; [|apply IH, Hnamed].
  simpl in Hnamed. apply andb_true_iff in Hnamed. destruct Hnamed as [Hn Hrest].
  simpl. unfold spawn. simpl node. simpl textOffset.
  assert (Hnt : isNonterminal n = true) by (destruct n; [discriminate Hk | reflexivity]).
  rewrite Hnt. simpl.
  unfold parsesAlone, isNamed in *. simpl fst in *.
  destruct (isValid (parse (inferSolidityVersion textDocument) ContractDefinition (unparse n)));
    simpl in *; [|apply IH, Hrest].
  destruct (contractDefName n) as [text|m]; [|discriminate Hn]. simpl.
  destruct (String.eqb text contractName); simpl; [|apply IH, Hrest].
  destruct (editNamespaceVariablesInFunctions (cursorAt n off) contractName variables
              textDocument []); reflexivity.
Qed.

Lemma resolveContract_spec prefix contractName variables textDocument :
  contractsNamed textDocument = true ->
  resolveContract prefix contractName variables textDocument
  = match targetContract textDocument contractName with
    | None => Ok (None, [])
    | Some contract =>
        edits <- editNamespaceVariablesInFunctions (cursorAt (fst contract) (snd contract))
                   contractName variables textDocument [] ;;
        Ok (getNamespaceStructEndRange (cursorAt (fst contract) (snd contract))
              prefix contractName, edits)
    end.
Proof.
  intros Hnamed.
  unfold resolveContract, whileGoToNext, createTreeCursor, cursorAt. simpl.
  apply resolveContract_loop. exact Hnamed.
Qed.

Lemma editNewNamespace_spec prefix contractName first others edits :
  editNewNamespace prefix contractName (first :: others) edits
  = Ok (edits ++ newNamespaceEdits prefix contractName first others)%list.
Proof.
  unfold editNewNamespace, newNamespaceEdits.
  rewrite fold_left_push_map. unfold push. rewrite <- app_assoc. reflexivity.
Qed.


Lemma editExistingNamespace_spec contractName variables textDocument edits structEndRange :
  editExistingNamespace contractName variables textDocument edits structEndRange "    "
  = (edits ++ existingNamespaceEdits textDocument contractName structEndRange variables)%list.
Proof.
  unfold editExistingNamespace, existingNamespaceEdits.
  revert edits. induction variables as [|v vs IH]; intros edits; simpl.
  - rewrite app_nil_r. reflexivity.
  - rewrite IH. unfold push.
    destruct (publicGetter v); rewrite <- !app_assoc; reflexivity.
Qed.

(** With no variable to move, no body is rewritten and nothing can throw. *)
Lemma bracesPresent_nil contractName (contract : Located) :
  bracesPresent contractName [] contract = true.
Proof.
  unfold bracesPresent. apply forallb_forall. intros body _.
  unfold needsGetter, isRewritten, matchingIdentifiers, matchesVariable.
  replace (filter _ (descendants (blockOf body))) with (@nil Located); [reflexivity|].
  induction (descendants (blockOf body)) as [|y l IH]; simpl; [reflexivity|].
  rewrite andb_false_r. exact IH.
Qed.


Lemma resolveContract_wellFormed prefix contractName variables textDocument :
  wellFormed textDocument contractName variables = true ->
  resolveContract prefix contractName variables textDocument
  = Ok (existingStructEnd textDocument prefix contractName,
        functionEdits textDocument contractName variables).
Proof.
  unfold wellFormed, existingStructEnd, functionEdits.
  intros H. apply andb_true_iff in H. destruct H as [Hnamed Hbraces].
  rewrite resolveContract_spec by exact Hnamed.
  destruct (targetContract textDocument contractName) as [contract|]; [|reflexivity].
  rewrite editNamespaceVariablesInFunctions_spec by exact Hbraces.
  reflexivity.
Qed.

Lemma getMoveAllVariablesToNamespaceQuickFix_nil fixesDiagnostics title prefix contractName
    textDocument :
  contractsNamed textDocument = true ->
  getMoveAllVariablesToNamespaceQuickFix fixesDiagnostics title prefix contractName []
    textDocument = Ok None.
Proof.
  intros Hnamed. unfold getMoveAllVariablesToNamespaceQuickFix.
  rewrite resolveContract_wellFormed; [reflexivity|].
  unfold wellFormed. rewrite Hnamed. simpl.
  destruct (targetContract textDocument contractName); [apply bracesPresent_nil | reflexivity].
Qed.

Lemma getMoveAllVariablesToNamespaceQuickFix_cons fixesDiagnostics title prefix contractName
    first others textDocument :
  wellFormed textDocument contractName (first :: others) = true ->
  getMoveAllVariablesToNamespaceQuickFix fixesDiagnostics title prefix contractName
    (first :: others) textDocument
  = Ok (Some (moveAction fixesDiagnostics title textDocument
                (functionEdits textDocument contractName (first :: others)
                 ++ match existingStructEnd textDocument prefix contractName with
                    | None => newNamespaceEdits prefix contractName first others
                    | Some structEndRange =>
                        existingNamespaceEdits textDocument contractName structEndRange
                          (first :: others)
                    end)%list)).
Proof.
  intros Hwf. unfold getMoveAllVariablesToNamespaceQuickFix.
  rewrite resolveContract_wellFormed by exact Hwf.
  cbn [bind Nat.eqb List.length].
  destruct (existingStructEnd textDocument prefix contractName) as [r|].
  - cbn [bind]. rewrite editExistingNamespace_spec. reflexivity.
  - rewrite editNewNamespace_spec. reflexivity.
Qed.

End QuickfixLemmas.



(** ** The slot hash *)
Section SlotHash.

Import NamespaceIdentity.

Lemma hexDigit_lower (d : Z) : isLowerHexDigit (hexDigit d) = true.
Proof.
  unfold hexDigit.
  destruct (Z.to_nat d) as [|n]; [reflexivity|].
  do 14 (destruct n as [|n]; [reflexivity|]).
  reflexivity.
Qed.

Lemma hexDigits_length (n : nat) :
  forall v acc, String.length (hexDigits n v acc) = n + String.length acc.
Proof.
  induction n as [|n IH]; intros v acc; simpl; [reflexivity|].
  rewrite IH. simpl. lia.
Qed.

Lemma hexDigits_lower (n : nat) :
  forall v acc,
    forallb isLowerHexDigit (list_ascii_of_string acc) = true ->
    forallb isLowerHexDigit (list_ascii_of_string (hexDigits n v acc)) = true.
Proof.
  induction n as [|n IH]; intros v acc Hacc; simpl; [exact Hacc|].
  apply IH. simpl. rewrite hexDigit_lower. exact Hacc.
Qed.

Lemma toHex64_format (v : Z) :
  isSlotHashFormat (toHex64 v) = true /\ String.length (toHex64 v) = 66.
Proof.
  unfold toHex64. cbn [append]. split.
  - unfold isSlotHashFormat.
    rewrite hexDigits_length, hexDigits_lower by reflexivity. reflexivity.
  - cbn [String.length]. rewrite hexDigits_length. reflexivity.
Qed.

(** The hash of the empty message, as every Keccak-256 library gives it. *)
Example keccak256_empty :
  toHex64 (keccakUint "")
  = "0xc5d2460186f7233c927e7db2dcc703c0e500b653ca82273b7bfad8045d85a470".
Proof. vm_compute. reflexivity. Qed.

Lemma hexValue_hexDigit (d : Z) :
  (0 <= d < 16)%Z -> hexValue (hexDigit d) = Some d.
Proof.
  intros Hd.
  assert (H : (d = 0 \/ d = 1 \/ d = 2 \/ d = 3 \/ d = 4 \/ d = 5 \/ d = 6 \/ d = 7
               \/ d = 8 \/ d = 9 \/ d = 10 \/ d = 11 \/ d = 12 \/ d = 13 \/ d = 14
               \/ d = 15)%Z) by lia.
  repeat (destruct H as [->|H]; [reflexivity|]). subst d. reflexivity.
Qed.

(** Reading back what [hexDigits] wrote gives the number written. *)
Lemma parseHexDigits_hexDigits (n : nat) :
  forall v rest acc,
    parseHexDigits (hexDigits n v rest) acc
    = parseHexDigits rest (acc * 16 ^ Z.of_nat n + v mod 16 ^ Z.of_nat n)%Z.
Proof.
  induction n as [|n IH]; intros v rest acc.
  - simpl. rewrite Z.mod_1_r. f_equal. lia.
  - cbn [hexDigits]. rewrite IH. cbn [parseHexDigits].
    rewrite hexValue_hexDigit by (apply Z.mod_pos_bound; lia).
    f_equal. rewrite Nat2Z.inj_succ, Z.pow_succ_r by lia.
    rewrite (Z.rem_mul_r v 16 (16 ^ Z.of_nat n)%Z) by lia. lia.
Qed.

Lemma fromHex_toHex64 (v : Z) :
  (0 <= v < 2 ^ 256)%Z -> fromHex (toHex64 v) = Some v.
Proof.
  intros Hv. unfold toHex64. cbn [append]. unfold fromHex.
  rewrite parseHexDigits_hexDigits. cbn [parseHexDigits]. f_equal.
  change (16 ^ Z.of_nat 64)%Z with (2 ^ 256)%Z.
  rewrite Z.mod_small by exact Hv. lia.
Qed.

Lemma land_255_range (x : Z) : (0 <= Z.land x 255 < 256)%Z.
Proof.
  change 255%Z with (Z.ones 8). rewrite Z.land_ones by lia.
  apply Z.mod_pos_bound. lia.
Qed.

Lemma keccak256_bytes (msg : list Z) :
  List.length (Keccak.keccak256 msg) = 32
  /\ Forall (fun b => (0 <= b < 256)%Z) (Keccak.keccak256 msg).
Proof.
  unfold Keccak.keccak256.
  generalize (fst (fold_left Keccak.absorb_byte (msg ++ Keccak.pad (List.length msg))
                     (repeat 0%Z 25, 0%nat))).
  intros st. split; [reflexivity|].
  unfold Keccak.lane_bytes. cbn [seq flat_map map app].
  repeat (apply Forall_cons; [apply land_255_range|]). apply Forall_nil.
Qed.

Lemma bytesToUint_range (bs : list Z) :
  Forall (fun b => (0 <= b < 256)%Z) bs ->
  (0 <= bytesToUint bs < 256 ^ Z.of_nat (List.length bs))%Z.
Proof.
  unfold bytesToUint. intros Hbs.
  assert (H : forall acc, (0 <= acc)%Z ->
             (0 <= fold_left (fun a b => a * 256 + b) bs acc
              < (acc + 1) * 256 ^ Z.of_nat (List.length bs))%Z).
  { induction Hbs as [|b bs Hb Hbs IH]; intros acc Hacc.
    - simpl. lia.
    - cbn [fold_left List.length]. rewrite Nat2Z.inj_succ, Z.pow_succ_r by lia.
      specialize (IH (acc * 256 + b)%Z ltac:(lia)).
      assert (0 < 256 ^ Z.of_nat (List.length bs))%Z by (apply Z.pow_pos_nonneg; lia).
      nia. }
  specialize (H 0%Z ltac:(lia)). lia.
Qed.

Lemma keccakWord_range (msg : list Z) :
  (0 <= bytesToUint (Keccak.keccak256 msg) < 2 ^ 256)%Z.
Proof.
  destruct (keccak256_bytes msg) as [Hlen Hbytes].
  pose proof (bytesToUint_range _ Hbytes) as H. rewrite Hlen in H. exact H.
Qed.

(** Masking with NOT 0xff clears the low byte and keeps the rest. *)
Lemma land_lnot_255 (x : Z) : Z.land x (Z.lnot 255) = (256 * (x / 256))%Z.
Proof.
  rewrite <- Z.ldiff_land. change 255%Z with (Z.ones 8).
  rewrite Z.ldiff_ones_r by lia.
  rewrite Z.shiftr_div_pow2, Z.shiftl_mul_pow2 by lia.
  change (2 ^ 8)%Z with 256%Z. lia.
Qed.

(** C1, as stated, fails at the example identifier of ERC-7201: the steps
    the claim spells out, (H - 1) AND NOT 0xff with one hash, do not give
    the slot the standard publishes, so no function meets both parts of the
    claim; [computeSlotHash], which gives the published slot, differs from
    the spelled-out steps there. *)
Lemma spelled_formula_misses_the_vector :
  spelledSlot erc7201ExampleId <> erc7201ExampleSlot
  /\ computeSlotHash erc7201ExampleId <> spelledSlot erc7201ExampleId.
Proof.
  split; apply String.eqb_neq; vm_compute; reflexivity.
Qed.

(** C1 (amended): with H = keccak256 of the bytes of [id],
    [computeSlotHash id] is keccak256 of the 32 big-endian bytes of H - 1,
    AND NOT 0xff: it is "0x" and 64 lowercase hexadecimal digits, 66
    characters, for every [id]; read back as a number it is that masked
    hash, a multiple of 256; and for the example identifier of ERC-7201 it
    is the slot the standard publishes. *)
Theorem computeSlotHash_erc7201 :
  (forall id,
      let H := keccakUint id in
      let outer :=
        bytesToUint (Keccak.keccak256 (uintToBytes32 ((H - 1) mod 2 ^ 256)%Z)) in
      isSlotHashFormat (computeSlotHash id) = true
      /\ String.length (computeSlotHash id) = 66
      /\ fromHex (computeSlotHash id) = Some (Z.land outer (Z.lnot 255))
      /\ Z.land outer (Z.lnot 255) = (outer - outer mod 256)%Z)
  /\ computeSlotHash erc7201ExampleId = erc7201ExampleSlot.
Proof.
  split.
  - intros id H outer.
    assert (Hrange : (0 <= outer < 2 ^ 256)%Z) by apply keccakWord_range.
    assert (Hmask : Z.land outer (Z.lnot 255) = (outer - outer mod 256)%Z).
    { rewrite land_lnot_255. pose proof (Z.div_mod outer 256 ltac:(lia)). lia. }
    split; [apply toHex64_format|]. split; [apply toHex64_format|]. split; [|exact Hmask].
    unfold computeSlotHash, erc7201Slot. fold H. fold outer.
    apply fromHex_toHex64. rewrite Hmask.
    pose proof (Z.mod_pos_bound outer 256 ltac:(lia)).
    pose proof (Z.mod_le outer 256 ltac:(lia) ltac:(lia)). lia.
  - vm_compute. reflexivity.
Qed.

End SlotHash.

(** ** Code actions of the server *)
Section ServerTheorems.

Context {collaborators : Collaborators}.

(** What one iteration pushes does not depend on what was pushed before. *)
Lemma codeActionsStep_acc diagnostics textDocument diagnostic codeActions :
  codeActionsStep diagnostics textDocument diagnostic codeActions
  = match codeActionsStep diagnostics textDocument diagnostic [] with
    | Ok pushed => Ok (codeActions ++ pushed)%list
    | Throw m => Throw m
    end.
Proof.
  unfold codeActionsStep, push.
  repeat match goal with
         | |- context [if ?b then _ else _] => destruct b
         end;
    try (destruct (dataReplacement diagnostic); reflexivity).
  - destruct (data diagnostic); try reflexivity.
    destruct (getMoveAllVariablesToNamespaceQuickFix _ _ _ _ _ _) as [[action|]|m];
      simpl; try reflexivity.
    rewrite app_nil_r. reflexivity.
  - rewrite app_nil_r. reflexivity.
Qed.

(** C7: for each of the four mismatch kinds, the action pushed for a
    diagnostic has exactly one edit, at the range of the diagnostic, whose
    text is the replacement of the fix datum. *)
Theorem literal_replacement_single_edit diagnostics textDocument diagnostic replacement
    codeActions :
  In (code diagnostic) mismatchCodes ->
  data diagnostic = ReplacementData replacement ->
  let action :=
    {| title := replacementTitle (code diagnostic);
       kind := QuickFix;
       edit := {| changes := [ (uri textDocument,
                                [ {| range := diagnosticRange diagnostic;
                                     newText := replacement |} ]) ] |};
       diagnostics := [diagnostic] |} in
  codeActionsStep diagnostics textDocument diagnostic codeActions
  = Ok (push codeActions action)
  /\ getCodeActions [diagnostic] textDocument = [action].
Proof.
  intros Hcode Hdata action.
  assert (Hstep : forall ds acc,
             codeActionsStep ds textDocument diagnostic acc = Ok (push acc action)).
  { intros ds acc. subst action. unfold codeActionsStep, dataReplacement, getQuickFixReplacement.
    rewrite Hdata.
    simpl in Hcode.
    destruct Hcode as [H|[H|[H|[H|[]]]]]; rewrite <- H; reflexivity. }
  split; [apply Hstep|].
  unfold getCodeActions. simpl. rewrite Hstep. reflexivity.
Qed.

(** C4 (amended): when the synthesis for one diagnostic of a batch throws,
    the loop ends there: the result holds the actions of the diagnostics
    before it, and none for it or for any diagnostic after it. *)
Theorem failure_ends_the_batch diagnostics textDocument before diagnostic after codeActions :
  stepThrows diagnostics textDocument diagnostic = true ->
  codeActionsLoop diagnostics textDocument (before ++ diagnostic :: after) codeActions
  = codeActionsLoop diagnostics textDocument before codeActions.
Proof.
  unfold stepThrows. intros Hthrows.
  revert codeActions. induction before as [|d before IH]; intros codeActions; simpl.
  - rewrite codeActionsStep_acc.
    destruct (codeActionsStep diagnostics textDocument diagnostic []);
      [discriminate Hthrows | reflexivity].
  - destruct (codeActionsStep diagnostics textDocument d codeActions); [apply IH | reflexivity].
Qed.

End ServerTheorems.

(** ** The move-to-namespace fix *)
Section QuickfixTheorems.

Context {collaborators : Collaborators}.



Lemma isStorageGetterEdit_rewrite contractName textDocument (l : list Located) :
  filter (isStorageGetterEdit contractName) (map (rewriteEdit textDocument) l) = [].
Proof.
  induction l as [|y l IH]; simpl; [reflexivity | exact IH].
Qed.



Lemma pairwise_overlap (l1 : list TextEdit) (e1 : TextEdit) (l2 : list TextEdit)
    (e2 : TextEdit) (l3 : list TextEdit) :
  rangesOverlap (range e1) (range e2) = true ->
  pairwiseNonOverlapping (l1 ++ e1 :: l2 ++ e2 :: l3) = false.
Proof.
  intros Hov. induction l1 as [|e l1 IH]; simpl.
  - rewrite forallb_app. simpl. rewrite Hov. simpl.
    rewrite andb_false_r. reflexivity.
  - rewrite IH. apply andb_false_r.
Qed.


(** C6: in a function body or constructor with a rewritten identifier, the
    declaration of the storage pointer is put at the opening brace of the
    block exactly when the text of the block does not include the expected
    line; a block that includes it gets no declaration. *)
Theorem storage_getter_inserted_once (contract : Located) (contractName : string)
    (variables : list StorageVariable) (textDocument : TextDocument) (edits : list TextEdit)
    (body : Located) :
  bracesPresent contractName variables contract = true ->
  In body (bodiesOf contract) ->
  isRewritten variables body = true ->
  let rewrites :=
    map (rewriteEdit textDocument) (matchingIdentifiers variables (blockOf body)) in
  editNamespaceVariablesInFunctions (cursorAt (fst contract) (snd contract)) contractName
    variables textDocument edits
  = Ok (edits ++ flat_map (bodyEdits textDocument contractName variables)
                   (bodiesOf contract))%list
  /\ (includes (unparse (fst (blockOf body))) (expectedLine contractName) = false ->
      exists openBrace,
        firstTerminal OpenBrace (blockOf body) = Some openBrace
        /\ bodyEdits textDocument contractName variables body
           = (rewrites
              ++ [ {| range := slangToVSCodeRange textDocument (locatedRange openBrace);
                      newText := "{" ++ newline ++ "    " ++ "    "
                                 ++ expectedLine contractName ++ newline |} ])%list)
  /\ (includes (unparse (fst (blockOf body))) (expectedLine contractName) = true ->
      bodyEdits textDocument contractName variables body = rewrites
      /\ filter (isStorageGetterEdit contractName)
           (bodyEdits textDocument contractName variables body) = []).
Proof.
  intros Hbraces Hin Hrew rewrites. split; [|split].
  - apply (editNamespaceVariablesInFunctions_spec (cursorAt (fst contract) (snd contract))).
    simpl. destruct contract. exact Hbraces.
  - intros Hinc.
    unfold bracesPresent in Hbraces. rewrite forallb_forall in Hbraces.
    specialize (Hbraces body Hin).
    unfold bodyEdits, getterEdits, needsGetter in *. rewrite Hrew, Hinc in *. simpl in *.
    destruct (firstTerminal OpenBrace (blockOf body)) as [ob|]; [|discriminate Hbraces].
    exists ob. split; reflexivity.
  - intros Hinc.
    unfold bodyEdits, getterEdits, needsGetter. rewrite Hrew, Hinc. simpl.
    rewrite app_nil_r. split; [reflexivity|].
    apply isStorageGetterEdit_rewrite.
Qed.

(** C9: the detection of an existing namespace struct looks at the first
    single-line NatSpec comment below the contract only, and reports an
    insertion point exactly when that comment includes the storage-location
    tag of (prefix, contract name), [@custom:storage-location erc7201:] and
    the namespace id; the point is then the range of the first closing
    brace below the contract, which in [functionFirst] is the brace of a
    function and not the one of the annotated struct; in a contract whose
    first comment is a note, no point is reported though the next comment
    tags the struct. *)
Theorem struct_end_is_first_closing_brace :
  (forall (k : NonterminalKind) (children : list Node) (off : nat)
          (prefix contractName : string),
      let contract := (NonterminalNode k children, off) in
      getNamespaceStructEndRange (cursorAt (fst contract) (snd contract)) prefix contractName
      = match firstTerminal SingleLineNatSpecComment contract with
        | Some comment =>
            if includes (terminalText (fst comment))
                 ("@custom:storage-location erc7201:" ++ getNamespaceId prefix contractName)
            then Some (locatedRange (match firstTerminal CloseBrace contract with
                                     | Some closeBrace => closeBrace
                                     | None => contract
                                     end))
            else None
        | None => None
        end)
  /\ (let contract :=
        (Examples.contractDefinition "Foo"
           [ Examples.functionDefinition "bump" [ Examples.increment "x" ];
             Examples.namespaceStruct; Examples.stateVariable "x" ], 0) in
      let struct := (Examples.namespaceStruct, 66) in
      find (fun y => isNonterminalWithKind (OtherNonterminal "StructDefinition") (fst y))
           (descendants contract) = Some struct
      /\ @getNamespaceStructEndRange Examples.exampleCollaborators
           (cursorAt (fst contract) (snd contract)) "erc7201" "Foo"
         = Some {| Slang.start := 64; Slang.end_ := 65 |}
      /\ option_map locatedRange (firstTerminal CloseBrace struct)
         = Some {| Slang.start := 174; Slang.end_ := 175 |})
  /\ (let contract := (NonterminalNode ContractDefinition MoreExamples.noteFirstChildren, 0) in
      option_map (fun y => terminalText (fst y))
        (firstTerminal SingleLineNatSpecComment contract)
      = Some "/// the counter"
      /\ existsb (fun y => includes (terminalText (fst y))
                             "@custom:storage-location erc7201:erc7201.storage.Foo")
           (descendants contract) = true
      /\ @getNamespaceStructEndRange Examples.exampleCollaborators
           (cursorAt (fst contract) (snd contract)) "erc7201" "Foo"
         = None).
Proof.
  split; [|split].
  - intros. apply getNamespaceStructEndRange_spec.
  - cbv zeta. split; [|split]; vm_compute; reflexivity.
  - cbv zeta. split; [|split]; vm_compute; reflexivity.
Qed.



(** C8: with no variable to move the fix answers that there is nothing to
    do, and not an action without edits; with variables, a fix that
    returns has put all its edits, those inside the function bodies and
    those of the namespace, into one action. *)
Theorem empty_list_is_nothing_to_do (fixesDiagnostics : list Diagnostic)
    (title prefix contractName : string) (textDocument : TextDocument) :
  contractsNamed textDocument = true ->
  getMoveAllVariablesToNamespaceQuickFix fixesDiagnostics title prefix contractName []
    textDocument = Ok None
  /\ (forall first others result,
         getMoveAllVariablesToNamespaceQuickFix fixesDiagnostics title prefix contractName
           (first :: others) textDocument = Ok result ->
         exists structEnd inBodies,
           resolveContract prefix contractName (first :: others) textDocument
           = Ok (structEnd, inBodies)
           /\ result
              = Some (moveAction fixesDiagnostics title textDocument
                        (inBodies
                         ++ match structEnd with
                            | None => newNamespaceEdits prefix contractName first others
                            | Some structEndRange =>
                                existingNamespaceEdits textDocument contractName
                                  structEndRange (first :: others)
                            end)%list)).
Proof.
  intros Hnamed. split.
  - apply getMoveAllVariablesToNamespaceQuickFix_nil. exact Hnamed.
  - intros first others result. unfold getMoveAllVariablesToNamespaceQuickFix.
    destruct (resolveContract prefix contractName (first :: others) textDocument)
      as [[structEnd inBodies]|m]; [|discriminate].
    cbn [bind Nat.eqb List.length].
    intros H. exists structEnd, inBodies. split; [reflexivity|].
    destruct structEnd as [r|].
    + cbn [bind] in H. rewrite editExistingNamespace_spec in H.
      inversion H. reflexivity.
    + rewrite editNewNamespace_spec in H. cbn [bind] in H.
      inversion H. reflexivity.
Qed.

(** C3, what the code does: when no contract of the current text has the
    requested name, the fix with a variable list that is not empty still
    returns an action, made of the new-namespace edits at the ranges the
    diagnostic carries. *)
Theorem absent_contract_still_yields_action (fixesDiagnostics : list Diagnostic)
    (title prefix contractName : string) (first : StorageVariable)
    (others : list StorageVariable) (textDocument : TextDocument) :
  contractsNamed textDocument = true ->
  targetContract textDocument contractName = None ->
  getMoveAllVariablesToNamespaceQuickFix fixesDiagnostics title prefix contractName
    (first :: others) textDocument
  = Ok (Some (moveAction fixesDiagnostics title textDocument
                (newNamespaceEdits prefix contractName first others))).
Proof.
  intros Hnamed Htarget.
  rewrite getMoveAllVariablesToNamespaceQuickFix_cons.
  - unfold existingStructEnd, functionEdits. rewrite Htarget. reflexivity.
  - unfold wellFormed. rewrite Hnamed, Htarget. reflexivity.
Qed.

(** C2, what the code does: with an existing namespace struct and two or
    more variables, the field insertions all replace the one range of the
    closing brace, so the edits of the action overlap. *)
Theorem existing_namespace_insertions_overlap (fixesDiagnostics : list Diagnostic)
    (title prefix contractName : string) (first second : StorageVariable)
    (others : list StorageVariable) (textDocument : TextDocument) (structEnd : TextRange) :
  wellFormed textDocument contractName (first :: second :: others) = true ->
  existingStructEnd textDocument prefix contractName = Some structEnd ->
  Position_ltb (LSP.start (slangToVSCodeRange textDocument structEnd))
               (LSP.end_ (slangToVSCodeRange textDocument structEnd)) = true ->
  exists action,
    getMoveAllVariablesToNamespaceQuickFix fixesDiagnostics title prefix contractName
      (first :: second :: others) textDocument = Ok (Some action)
    /\ In {| range := slangToVSCodeRange textDocument structEnd;
             newText := "    " ++ content first ++ newline ++ "    " ++ "}" |}
          (editsOf action)
    /\ In {| range := slangToVSCodeRange textDocument structEnd;
             newText := "    " ++ content second ++ newline ++ "    " ++ "}" |}
          (editsOf action)
    /\ pairwiseNonOverlapping (editsOf action) = false.
Proof.
  intros Hwf Hend Hrange.
  eexists. split.
  - rewrite getMoveAllVariablesToNamespaceQuickFix_cons by exact Hwf.
    rewrite Hend. reflexivity.
  - unfold editsOf, moveAction. cbn [edit changes flat_map snd].
    rewrite app_nil_r.
    unfold existingNamespaceEdits. cbn [flat_map app].
    split; [|split].
    + apply in_or_app. right. right. left. reflexivity.
    + apply in_or_app. right. right. right. right. left. reflexivity.
    + match goal with
      | |- pairwiseNonOverlapping (?l ++ ?a :: ?e1 :: ?b :: ?e2 :: ?rest) = false =>
          change (l ++ a :: e1 :: b :: e2 :: rest)%list
            with (l ++ [a] ++ e1 :: [b] ++ e2 :: rest)%list;
          rewrite app_assoc; apply pairwise_overlap
      end.
      cbn [range]. unfold rangesOverlap. rewrite Hrange. reflexivity.
Qed.

End QuickfixTheorems.

(** ** The theorems at the example documents *)
Section Evaluations.

Import Examples.

(** Closed goals are settled by evaluation. *)
Ltac evaluate := vm_compute; exact eq_refl.

(** Scenario A: the fix rewrites [x], declares the pointer at the brace of
    [bump] and replaces the variable with the namespace. *)
Example scenarioA_fix :
  option_map editsOf
    (match getMoveAllVariablesToNamespaceQuickFix [] moveTitle "erc7201" "Foo"
             [variableAt "x" 1] (documentOf scenarioA) with
     | Ok result => result
     | Throw _ => None
     end)
  = Some [ {| range := span 3 8 3 9; newText := "$.x" |};
           {| range := span 2 27 2 28;
              newText := "{" ++ newline
                         ++ "        FooStorage storage $ = _getFooStorage();" ++ newline |};
           {| range := span 1 4 1 14;
              newText := namespaceTemplate
                           {| namespaceContractName := "Foo";
                              namespacePrefix := "erc7201";
                              namespaceVariables := [variableAt "x" 1] |} |} ].
Proof. evaluate. Qed.

(** The edits for two variables of a contract that has its struct. *)
Example withNamespace_fix :
  option_map editsOf
    (match getMoveAllVariablesToNamespaceQuickFix [] moveTitle "erc7201" "Foo"
             [variableAt "x" 5; variableAt "y" 6] (documentOf withNamespace) with
     | Ok result => result
     | Throw _ => None
     end)
  = Some [ {| range := span 5 4 5 14; newText := "" |};
           {| range := span 4 4 4 5; newText := "    uint256 x;" ++ newline ++ "    }" |};
           {| range := span 6 4 6 14; newText := "" |};
           {| range := span 4 4 4 5; newText := "    uint256 y;" ++ newline ++ "    }" |} ].
Proof. evaluate. Qed.

(** C7 at the hash mismatch. *)
Lemma literal_replacement_hashMismatch :
  getCodeActions [hashMismatch] (documentOf withNamespace)
  = [ {| title := "Recalculate hash using comment";
         kind := QuickFix;
         edit := {| changes :=
                      [ ("file:///Foo.sol",
                         [ {| range := span 3 40 3 106;
                              newText :=
                                "0xf2eacd0d8c40359509ad29d2b0d1d490123f1f694be8e963bad33c39476cd600"
                           |} ]) ] |};
         diagnostics := [hashMismatch] |} ].
Proof.
  apply (literal_replacement_single_edit [hashMismatch] (documentOf withNamespace)
           hashMismatch
           "0xf2eacd0d8c40359509ad29d2b0d1d490123f1f694be8e963bad33c39476cd600" []).
  - simpl. right. right. left. reflexivity.
  - reflexivity.
Defined.

(** C4, as stated, fails: the diagnostic without datum makes the synthesis
    throw, and the hash mismatch after it, which alone gets its action, gets
    none in the batch. *)
Lemma later_diagnostic_loses_its_action :
  stepThrows [withoutData; hashMismatch] (documentOf withNamespace) withoutData = true
  /\ List.length (getCodeActions [hashMismatch] (documentOf withNamespace)) = 1
  /\ getCodeActions [withoutData; hashMismatch] (documentOf withNamespace) = [].
Proof.
  split; [|split]; evaluate.
Qed.

(** C4 (amended) at a batch of three: the action before the failure is
    kept, the one after it is not computed. *)
Lemma failure_ends_the_batch_of_three :
  getCodeActions [hashMismatch; withoutData; hashMismatch] (documentOf withNamespace)
  = codeActionsLoop [hashMismatch; withoutData; hashMismatch] (documentOf withNamespace)
      [hashMismatch] [].
Proof.
  apply (failure_ends_the_batch [hashMismatch; withoutData; hashMismatch]
           (documentOf withNamespace) [hashMismatch] withoutData [hashMismatch] []).
  evaluate.
Defined.

(** C6 at scenario A, where the declaration is put at the brace of [bump],
    and at [partlyMigrated], where the body has the line and gets none. *)
Lemma storage_getter_inserted_once_examples :
  bodyEdits (documentOf scenarioA) "Foo" [variableAt "x" 1] bodyA
  = [ {| range := span 3 8 3 9; newText := "$.x" |};
      {| range := span 2 27 2 28;
         newText := "{" ++ newline
                    ++ "        FooStorage storage $ = _getFooStorage();" ++ newline |} ]
  /\ bodyEdits (documentOf partlyMigrated) "Foo" [variableAt "y" 1] bodyM
     = [ {| range := span 4 8 4 9; newText := "$.y" |} ].
Proof.
  split.
  - destruct (storage_getter_inserted_once contractA "Foo" [variableAt "x" 1]
                (documentOf scenarioA) [] bodyA) as [_ [H _]].
    + evaluate.
    + vm_compute. left. reflexivity.
    + evaluate.
    + destruct H as [openBrace [Hbrace Hedits]].
      * evaluate.
      * rewrite Hedits.
        assert (HeqB : openBrace = (TerminalNode OpenBrace "{", 57)).
        { vm_compute in Hbrace. inversion Hbrace. reflexivity. }
        rewrite HeqB. evaluate.
  - destruct (storage_getter_inserted_once contractM "Foo" [variableAt "y" 1]
                (documentOf partlyMigrated) [] bodyM) as [_ [_ H]].
    + evaluate.
    + vm_compute. left. reflexivity.
    + evaluate.
    + destruct H as [Hedits _].
      * evaluate.
      * rewrite Hedits. evaluate.
Defined.



(** C8 at scenario A. *)
Lemma empty_list_scenarioA :
  getMoveAllVariablesToNamespaceQuickFix [] moveTitle "erc7201" "Foo" []
    (documentOf scenarioA) = Ok None.
Proof.
  apply (empty_list_is_nothing_to_do [] moveTitle "erc7201" "Foo" (documentOf scenarioA)).
  evaluate.
Defined.

(** C3 at a document that has no contract [Foo]: the action replaces the
    range the diagnostic carries, line 1 of a text that declares [z] of
    [Bar] there. *)
Lemma absent_contract_otherContract :
  getMoveAllVariablesToNamespaceQuickFix [] moveTitle "erc7201" "Foo" [variableAt "x" 1]
    (documentOf otherContract)
  = Ok (Some (moveAction [] moveTitle (documentOf otherContract)
                [ {| range := span 1 4 1 14;
                     newText := namespaceTemplate
                                  {| namespaceContractName := "Foo";
                                     namespacePrefix := "erc7201";
                                     namespaceVariables := [variableAt "x" 1] |} |} ])).
Proof.
  rewrite (absent_contract_still_yields_action [] moveTitle "erc7201" "Foo"
             (variableAt "x" 1) [] (documentOf otherContract)).
  - reflexivity.
  - evaluate.
  - evaluate.
Defined.

(** C2 at [withNamespace]: the insertions of [x] and of [y] both replace the
    closing brace of the struct on line 4. *)
Lemma existing_namespace_insertions_overlap_withNamespace :
  exists action,
    getMoveAllVariablesToNamespaceQuickFix [] moveTitle "erc7201" "Foo"
      [variableAt "x" 5; variableAt "y" 6] (documentOf withNamespace) = Ok (Some action)
    /\ In {| range := span 4 4 4 5; newText := "    uint256 x;" ++ newline ++ "    }" |}
          (editsOf action)
    /\ In {| range := span 4 4 4 5; newText := "    uint256 y;" ++ newline ++ "    }" |}
          (editsOf action)
    /\ pairwiseNonOverlapping (editsOf action) = false.
Proof.
  destruct (existing_namespace_insertions_overlap [] moveTitle "erc7201" "Foo"
              (variableAt "x" 5) (variableAt "y" 6) [] (documentOf withNamespace)
              {| Slang.start := 123; Slang.end_ := 124 |})
    as [action [H1 [H2 [H3 H4]]]].
  - evaluate.
  - evaluate.
  - evaluate.
  - exists action. split; [exact H1|]. split; [exact H2|]. split; [exact H3 | exact H4].
Defined.

End Evaluations.

(** ** Further properties of the cursor loops and of the fix *)
Section MoreQuickfixLemmas.

Context {collaborators : Collaborators}.

Lemma includes_append (s a b : string) :
  includes s (a ++ b) = true -> includes s a = true.
Proof.
  rewrite !includes_spec. intros [before [after H]].
  exists before, (b ++ after). rewrite H, append_assoc. reflexivity.
Qed.

(** A loop whose body, at each node, either goes on or throws. *)
Lemma whilePending_fold_or_throw {S : Type} (p : Node -> bool) (root : Located)
    (body : Cursor -> S -> Result (Control S)) (f : S -> Located -> S)
    (bad : Located -> bool) (m : string) (l : list Located) :
  (forall n off rest s, In (n, off) l -> p n = true ->
     body (mkCursor n off (fst root) (snd root) rest false) s
     = if bad (n, off) then Throw m else Ok (Continue (f s (n, off)))) ->
  forall s, whilePending p root l body s
            = if existsb bad (filter (fun y => p (fst y)) l) then Throw m
              else Ok (fold_left f (filter (fun y => p (fst y)) l) s).
Proof.
  induction l as [|[n off] l IH]; intros Hbody s; simpl; [reflexivity|].
  destruct (p n) eqn:E; simpl.
  - rewrite Hbody by (simpl; auto).
    destruct (bad (n, off)); simpl; [reflexivity|].
    apply IH. intros; apply Hbody; simpl; auto.
  - apply IH. intros; apply Hbody; simpl; auto.
Qed.

Lemma functionBody_step_throws contractName variables textDocument
    (n : Node) (off : nat) (root : Located) (rest : list Located) (edits : list TextEdit) :
  isNonterminalWithKinds [ConstructorDefinition; FunctionBody] n = true ->
  needsGetter contractName variables (n, off) = true ->
  firstTerminal OpenBrace (blockOf (n, off)) = None ->
  (let cursor := mkCursor n off (fst root) (snd root) rest false in
   let blockCursor := spawn cursor in
   let '(_, blockCursor) := goToNextNonterminalWithKind Block blockCursor in
   let blockNode := node blockCursor in
   _ <- assert (isNonterminal blockNode) ;;
   '(needsReplacement, edits) <- replaceVariables blockCursor variables edits textDocument ;;
   if needsReplacement : bool then
     edits <- addStorageGetter contractName blockNode blockCursor edits textDocument "    " ;;
     Ok (Continue edits)
   else Ok (Continue edits))
  = Throw "AssertionError".
Proof.
  intros Hkind Hneeds Hbrace. cbv zeta.
  unfold goToNextNonterminalWithKind, spawn. simpl node. simpl textOffset.
  pose proof (goToNextMatching_at (isNonterminalWithKind Block) n off) as H.
  simpl in H.
  destruct (goToNextMatching (isNonterminalWithKind Block) (cursorAt n off)) as [found bc].
  simpl in H. destruct H as [_ Hc].
  assert (Hblock : (node bc, textOffset bc) = blockOf (n, off)) by exact Hc.
  assert (Hnt : isNonterminal (node bc) = true).
  { unfold blockOf in Hblock.
    destruct (find (fun y => isNonterminalWithKind Block (fst y)) (descendants (n, off)))
      as [b|] eqn:E.
    - apply find_some in E. destruct E as [_ E].
      replace (node bc) with (fst b) by (rewrite <- Hblock; reflexivity).
      destruct (fst b); [discriminate E | reflexivity].
    - replace (node bc) with n by (inversion Hblock; reflexivity).
      destruct n; [discriminate Hkind | reflexivity]. }
  rewrite Hnt. simpl.
  rewrite replaceVariables_spec. simpl.
  rewrite addStorageGetter_spec.
  unfold needsGetter, isRewritten in Hneeds. rewrite Hblock.
  apply andb_true_iff in Hneeds. destruct Hneeds as [H1 H2].
  rewrite H1.
  replace (node bc) with (fst (blockOf (n, off))) by (rewrite <- Hblock; reflexivity).
  apply negb_true_iff in H2. rewrite H2, Hbrace. reflexivity.
Qed.

Lemma lacksBrace_bracesPresent contractName variables (contract : Located) :
  existsb (lacksBrace contractName variables) (bodiesOf contract)
  = negb (bracesPresent contractName variables contract).
Proof.
  unfold bracesPresent. induction (bodiesOf contract) as [|b l IH]; simpl; [reflexivity|].
  rewrite IH, negb_andb. f_equal. unfold lacksBrace.
  destruct (needsGetter contractName variables b); simpl; [|reflexivity].
  destruct (firstTerminal OpenBrace (blockOf b)); reflexivity.
Qed.

(** X1: [editNamespaceVariablesInFunctions] either returns the edits it was
    given followed by the edits of every body in document order, or throws
    an AssertionError; it throws exactly when a body that gets a declaration
    has no opening brace below its block. *)
Theorem editNamespaceVariablesInFunctions_total (contractCursor : Cursor)
    (contractName : string) (variables : list StorageVariable) (textDocument : TextDocument)
    (edits : list TextEdit) :
  editNamespaceVariablesInFunctions contractCursor contractName variables textDocument edits
  = if bracesPresent contractName variables (node contractCursor, textOffset contractCursor)
    then Ok (edits ++ flat_map (bodyEdits textDocument contractName variables)
                       (bodiesOf (node contractCursor, textOffset contractCursor)))%list
    else Throw "AssertionError".
Proof.
  destruct (bracesPresent contractName variables
              (node contractCursor, textOffset contractCursor)) eqn:Hb.
  - apply editNamespaceVariablesInFunctions_spec. exact Hb.
  - unfold editNamespaceVariablesInFunctions, whileGoToNext, spawn, cursorAt. simpl.
    rewrite (whilePending_fold_or_throw _ _ _
               (fun acc y => (acc ++ bodyEdits textDocument contractName variables y)%list)
               (lacksBrace contractName variables) "AssertionError").
    + change (filter _ (tl (preorder (node contractCursor) (textOffset contractCursor))))
        with (bodiesOf (node contractCursor, textOffset contractCursor)).
      rewrite lacksBrace_bracesPresent, Hb. reflexivity.
    + intros n off rest s Hin Hp.
      destruct (lacksBrace contractName variables (n, off)) eqn:Hl.
      * unfold lacksBrace in Hl. apply andb_true_iff in Hl. destruct Hl as [H1 H2].
        apply (functionBody_step_throws contractName variables textDocument n off
                 (node contractCursor, textOffset contractCursor) rest s Hp H1).
        destruct (firstTerminal OpenBrace (blockOf (n, off))); [discriminate H2 | reflexivity].
      * apply (functionBody_step contractName variables textDocument n off
                 (node contractCursor, textOffset contractCursor) rest s Hp).
        unfold lacksBrace in Hl.
        destruct (needsGetter contractName variables (n, off)); [|reflexivity].
        destruct (firstTerminal OpenBrace (blockOf (n, off))); [reflexivity | discriminate Hl].
Qed.

Lemma preorderAll_incl (cs : list Node) (c : Node) (oc : nat) :
  forall off, In (c, oc) (preorderAll cs off) ->
  (forall c', In c' cs ->
     forall o m o', In (m, o') (preorder c' o) -> incl (preorder m o') (preorder c' o)) ->
  incl (preorder c oc) (preorderAll cs off).
Proof.
  induction cs as [|d cs IH]; intros off Hin Hcs; [destruct Hin|].
  simpl in Hin. apply in_app_or in Hin. simpl. destruct Hin as [Hin|Hin].
  - apply incl_appl. apply (Hcs d (or_introl eq_refl) off c oc Hin).
  - apply incl_appr. apply (IH _ Hin). intros c' Hc'. apply Hcs. right. exact Hc'.
Qed.

(** What a cursor visits below a node it visits, it visits. *)
Lemma preorder_incl (n : Node) :
  forall off m off', In (m, off') (preorder n off) -> incl (preorder m off') (preorder n off).
Proof.
  induction n as [k text|k cs IH] using Node_induction; intros off m off' Hin.
  - destruct Hin as [Heq|[]]. inversion Heq; subst. apply incl_refl.
  - rewrite preorder_nonterminal in Hin. destruct Hin as [Heq|Hin].
    + inversion Heq; subst. apply incl_refl.
    + rewrite (preorder_nonterminal k cs off). apply incl_tl.
      apply (preorderAll_incl cs m off' off Hin).
      rewrite Forall_forall in IH. exact IH.
Qed.

Lemma descendants_preorder (x y : Located) :
  In y (descendants x) -> In y (preorder (fst x) (snd x)).
Proof.
  intros H. rewrite preorder_head. right. destruct x. exact H.
Qed.

Lemma blockOf_preorder (body : Located) :
  In (blockOf body) (preorder (fst body) (snd body)).
Proof.
  unfold blockOf.
  destruct (find (fun y => isNonterminalWithKind Block (fst y)) (descendants body))
    as [b|] eqn:E.
  - apply find_some in E. apply descendants_preorder, E.
  - rewrite preorder_head. left. destruct body. reflexivity.
Qed.

Lemma functionEdits_grounded textDocument contractName variables (e : TextEdit) :
  In e (functionEdits textDocument contractName variables) ->
  groundedEdit textDocument contractName variables e.
Proof.
  unfold functionEdits.
  destruct (targetContract textDocument contractName) as [contract|] eqn:Ht; [|intros []].
  intros He. apply in_flat_map in He. destruct He as [body [Hbody He]].
  assert (Hc : In contract (preorder (fst (parsedRoot textDocument)) 0)).
  { unfold targetContract in Ht. apply find_some in Ht. destruct Ht as [Ht _].
    unfold contractsOf in Ht. apply filter_In in Ht. destruct Ht as [Ht _].
    apply (descendants_preorder (parsedRoot textDocument)). exact Ht. }
  assert (Hb : In (blockOf body) (preorder (fst (parsedRoot textDocument)) 0)).
  { destruct contract as [cn co]. apply (preorder_incl _ _ _ _ Hc).
    unfold bodiesOf in Hbody. apply filter_In in Hbody. destruct Hbody as [Hbody _].
    apply descendants_preorder in Hbody. simpl in Hbody.
    destruct body as [bn bo]. apply (preorder_incl _ _ _ _ Hbody).
    apply (blockOf_preorder (bn, bo)). }
  assert (Hground : forall y, In y (descendants (blockOf body)) ->
            In y (preorder (fst (parsedRoot textDocument)) 0)
            /\ substring (Slang.start (locatedRange y))
                 (Slang.end_ (locatedRange y) - Slang.start (locatedRange y))
                 (unparse (fst (parsedRoot textDocument)))
               = unparse (fst y)).
  { intros y Hy.
    assert (Hin : In y (preorder (fst (parsedRoot textDocument)) 0)).
    { destruct (blockOf body) as [kn ko]. apply (preorder_incl _ _ _ _ Hb).
      apply (descendants_preorder (kn, ko)). exact Hy. }
    split; [exact Hin|].
    destruct y as [yn yo].
    destruct (preorder_text _ _ _ _ Hin) as [_ [_ H]].
    unfold locatedRange. simpl.
    replace (yo + String.length (unparse yn) - yo) with (String.length (unparse yn)) by lia.
    rewrite Nat.sub_0_r in H. exact H. }
  unfold bodyEdits in He. apply in_app_or in He. destruct He as [He|He].
  - apply in_map_iff in He. destruct He as [y [He Hy]].
    unfold matchingIdentifiers in Hy. apply filter_In in Hy. destruct Hy as [Hy Hp].
    destruct (Hground y Hy) as [G1 G2].
    exists y. split; [exact G1|]. split; [rewrite <- He; reflexivity|]. split; [exact G2|].
    left. apply andb_true_iff in Hp. destruct Hp as [Hk Hm].
    destruct y as [[k text|k cs] yo]; [|discriminate Hk].
    destruct k; try discriminate Hk.
    exists text. split; [reflexivity|]. split.
    + unfold matchesVariable in Hm. apply existsb_exists in Hm.
      destruct Hm as [v [Hv Heq]]. apply String.eqb_eq in Heq.
      apply in_map_iff. exists v. split; [exact Heq | exact Hv].
    + rewrite <- He. reflexivity.
  - unfold getterEdits in He.
    destruct (needsGetter contractName variables body); [|destruct He].
    destruct (firstTerminal OpenBrace (blockOf body)) as [ob|] eqn:Eo; [|destruct He].
    destruct He as [He|[]].
    unfold firstTerminal in Eo. apply find_some in Eo. destruct Eo as [Eo Hk].
    destruct (Hground ob Eo) as [G1 G2].
    exists ob. split; [exact G1|]. split; [rewrite <- He; reflexivity|]. split; [exact G2|].
    right. split; [exact Hk | rewrite <- He; reflexivity].
Qed.

(** X2: every edit of the action is either one of the edits of the
    variables, at the ranges the diagnostic carries or at the end of the
    struct, or an edit grounded in the current text: at an identifier with
    the name of a moved variable or at an opening brace, whose range
    delimits exactly that terminal in the parsed text. *)
Theorem fix_edits_are_grounded (fixesDiagnostics : list Diagnostic)
    (title prefix contractName : string) (first : StorageVariable)
    (others : list StorageVariable) (textDocument : TextDocument) :
  wellFormed textDocument contractName (first :: others) = true ->
  exists inBodies ofVariables,
    getMoveAllVariablesToNamespaceQuickFix fixesDiagnostics title prefix contractName
      (first :: others) textDocument
    = Ok (Some (moveAction fixesDiagnostics title textDocument (inBodies ++ ofVariables)%list))
    /\ (forall e, In e inBodies ->
          groundedEdit textDocument contractName (first :: others) e)
    /\ (forall e, In e ofVariables ->
          (exists variable, In variable (first :: others) /\ range e = variableRange variable)
          \/ (exists structEnd,
                 existingStructEnd textDocument prefix contractName = Some structEnd
                 /\ range e = slangToVSCodeRange textDocument structEnd)).
Proof.
  intros Hwf. eexists. eexists. split; [|split].
  - apply getMoveAllVariablesToNamespaceQuickFix_cons. exact Hwf.
  - apply functionEdits_grounded.
  - intros e He.
    destruct (existingStructEnd textDocument prefix contractName) as [r|].
    + unfold existingNamespaceEdits in He. apply in_flat_map in He.
      destruct He as [v [Hv [He|[He|[]]]]].
      * left. exists v. split; [exact Hv | rewrite <- He; reflexivity].
      * right. exists r. split; [reflexivity | rewrite <- He; reflexivity].
    + left. unfold newNamespaceEdits in He. destruct He as [He|He].
      * exists first. split; [left; reflexivity | rewrite <- He; reflexivity].
      * apply in_map_iff in He. destruct He as [v [He Hv]].
        exists v. split; [right; exact Hv | rewrite <- He; reflexivity].
Qed.

(** X3: with a namespace struct detected, the action holds the edits inside
    the function bodies and then, for each variable in the order of the
    list, the edit of its declaration (the printed external getter when it
    has a public getter, a deletion otherwise) followed by the insertion of
    its declaration text and a closing brace at the end of the struct; two
    edits for each variable. *)
Theorem existing_namespace_edits (fixesDiagnostics : list Diagnostic)
    (title prefix contractName : string) (first : StorageVariable)
    (others : list StorageVariable) (textDocument : TextDocument) (structEnd : TextRange) :
  wellFormed textDocument contractName (first :: others) = true ->
  existingStructEnd textDocument prefix contractName = Some structEnd ->
  let variables := first :: others in
  let ofVariable variable :=
    [ {| range := variableRange variable;
         newText := match publicGetter variable with
                    | Some getter =>
                        printPublicGetter (name variable) (getterTypeName getter)
                          (toStorageStructName contractName) "    "
                    | None => ""
                    end |};
      {| range := slangToVSCodeRange textDocument structEnd;
         newText := "    " ++ content variable ++ newline ++ "    }" |} ] in
  exists action,
    getMoveAllVariablesToNamespaceQuickFix fixesDiagnostics title prefix contractName
      variables textDocument = Ok (Some action)
    /\ editsOf action
       = (functionEdits textDocument contractName variables
          ++ flat_map ofVariable variables)%list
    /\ List.length (editsOf action)
       = List.length (functionEdits textDocument contractName variables)
         + 2 * List.length variables.
Proof.
  intros Hwf Hend variables ofVariable.
  exists (moveAction fixesDiagnostics title textDocument
            (functionEdits textDocument contractName variables
             ++ existingNamespaceEdits textDocument contractName structEnd variables)%list).
  assert (Hlen : forall l,
             List.length (existingNamespaceEdits textDocument contractName structEnd l)
             = 2 * List.length l).
  { unfold existingNamespaceEdits. induction l as [|v l IH]; [reflexivity|].
    cbn [flat_map]. rewrite length_app, IH. simpl. lia. }
  split; [|split].
  - subst variables. rewrite getMoveAllVariablesToNamespaceQuickFix_cons by exact Hwf.
    rewrite Hend. reflexivity.
  - unfold editsOf, moveAction. cbn [edit changes flat_map snd].
    rewrite app_nil_r. reflexivity.
  - unfold editsOf, moveAction. cbn [edit changes flat_map snd].
    rewrite app_nil_r, length_app, Hlen. reflexivity.
Qed.

(** X4: the detection of the struct tests for a substring: a first NatSpec
    comment that holds the tag of a longer contract name, one that starts
    with the requested name, is taken for the namespace of the requested
    contract. *)
Theorem longer_name_is_detected (k : NonterminalKind) (children : list Node) (off : nat)
    (prefix contractName suffix : string) (comment : Located) :
  firstTerminal SingleLineNatSpecComment (NonterminalNode k children, off) = Some comment ->
  includes (terminalText (fst comment))
    (storageLocationTag prefix (contractName ++ suffix)) = true ->
  getNamespaceId prefix (contractName ++ suffix)
  = getNamespaceId prefix contractName ++ suffix ->
  getNamespaceStructEndRange (cursorAt (NonterminalNode k children) off) prefix contractName
  = Some (locatedRange
            (match firstTerminal CloseBrace (NonterminalNode k children, off) with
             | Some closeBrace => closeBrace
             | None => (NonterminalNode k children, off)
             end)).
Proof.
  intros Hfirst Hinc Hid.
  pose proof (getNamespaceStructEndRange_spec k children off prefix contractName) as H.
  cbv zeta in H. simpl fst in H. simpl snd in H. rewrite H, Hfirst.
  replace (includes (terminalText (fst comment)) (storageLocationTag prefix contractName))
    with true; [reflexivity|].
  symmetry. apply (includes_append _ _ suffix).
  unfold storageLocationTag in *. rewrite Hid in Hinc. rewrite append_assoc. exact Hinc.
Qed.

End MoreQuickfixLemmas.

(** ** Further properties of the code actions *)
Section MoreServerTheorems.

Context {collaborators : Collaborators}.

Lemma getMoveAllVariablesToNamespaceQuickFix_shape fixesDiagnostics title prefix contractName
    variables textDocument action :
  getMoveAllVariablesToNamespaceQuickFix fixesDiagnostics title prefix contractName variables
    textDocument = Ok (Some action) ->
  exists edits, action = moveAction fixesDiagnostics title textDocument edits.
Proof.
  unfold getMoveAllVariablesToNamespaceQuickFix.
  destruct (resolveContract prefix contractName variables textDocument)
    as [[structEnd inBodies]|m]; [|discriminate].
  cbn [bind]. destruct (List.length variables =? 0)%nat; [discriminate|].
  destruct structEnd as [r|].
  - cbn [bind]. intros H. inversion H. eexists. reflexivity.
  - destruct (editNewNamespace prefix contractName variables inBodies) as [edits|m];
      [|discriminate].
    cbn [bind]. intros H. inversion H. eexists. reflexivity.
Qed.

Lemma pushedBy_cases diagnostics textDocument diagnostic :
  pushedBy diagnostics textDocument diagnostic = []
  \/ exists action,
       pushedBy diagnostics textDocument diagnostic = [action]
       /\ actionFor diagnostics textDocument diagnostic action.
Proof.
  unfold pushedBy, codeActionsStep, dataReplacement, getQuickFixReplacement, actionFor.
  destruct (String.eqb (code diagnostic) NAMESPACE_ID_MISMATCH) eqn:E1.
  { apply String.eqb_eq in E1.
    destruct (data diagnostic); simpl; [left; reflexivity | |];
      right; eexists; (split; [reflexivity|]); left;
      (split; [rewrite E1; simpl; auto | eexists; rewrite E1; reflexivity]). }
  destruct (String.eqb (code diagnostic) NAMESPACE_ID_MISMATCH_HASH_COMMENT) eqn:E2.
  { apply String.eqb_eq in E2.
    destruct (data diagnostic); simpl; [left; reflexivity | |];
      right; eexists; (split; [reflexivity|]); left;
      (split; [rewrite E2; simpl; auto | eexists; rewrite E2; reflexivity]). }
  destruct (String.eqb (code diagnostic) NAMESPACE_HASH_MISMATCH) eqn:E3.
  { apply String.eqb_eq in E3.
    destruct (data diagnostic); simpl; [left; reflexivity | |];
      right; eexists; (split; [reflexivity|]); left;
      (split; [rewrite E3; simpl; auto | eexists; rewrite E3; reflexivity]). }
  destruct (String.eqb (code diagnostic) NAMESPACE_STANDALONE_HASH_MISMATCH) eqn:E4.
  { apply String.eqb_eq in E4.
    destruct (data diagnostic); simpl; [left; reflexivity | |];
      right; eexists; (split; [reflexivity|]); left;
      (split; [rewrite E4; simpl; auto 6 | eexists; rewrite E4; reflexivity]). }
  destruct (String.eqb (code diagnostic) CONTRACT_CAN_BE_NAMESPACED) eqn:E5.
  { apply String.eqb_eq in E5.
    destruct (data diagnostic) as [|r|contract]; [left; reflexivity | left; reflexivity |].
    destruct (getMoveAllVariablesToNamespaceQuickFix diagnostics
                "Move all variables to namespace" (getNamespacePrefix textDocument)
                (contractName contract) (contractVariables contract) textDocument)
      as [[action|]|m] eqn:Efix; simpl; [| left; reflexivity | left; reflexivity].
    right. exists action. split; [reflexivity|]. right. split; [exact E5|].
    apply (getMoveAllVariablesToNamespaceQuickFix_shape _ _ _ _ _ _ _ Efix). }
  left. reflexivity.
Qed.

(** X5: [getCodeActions] returns, in the order of the diagnostics, what the
    synthesis pushes for each diagnostic in front of the first one whose
    synthesis throws; what is pushed for a diagnostic does not depend on
    its place in the batch. *)
Theorem getCodeActions_in_order (diagnostics : list Diagnostic) (textDocument : TextDocument) :
  getCodeActions diagnostics textDocument
  = flat_map (pushedBy diagnostics textDocument)
      (beforeFailure diagnostics textDocument diagnostics).
Proof.
  unfold getCodeActions.
  assert (H : forall remaining acc,
             codeActionsLoop diagnostics textDocument remaining acc
             = (acc ++ flat_map (pushedBy diagnostics textDocument)
                         (beforeFailure diagnostics textDocument remaining))%list).
  { induction remaining as [|d rest IH]; intros acc; simpl.
    - rewrite app_nil_r. reflexivity.
    - rewrite codeActionsStep_acc.
      destruct (codeActionsStep diagnostics textDocument d []) as [pushed|m] eqn:E.
      + assert (Ht : stepThrows diagnostics textDocument d = false)
          by (unfold stepThrows; rewrite E; reflexivity).
        assert (Hp : pushedBy diagnostics textDocument d = pushed)
          by (unfold pushedBy; rewrite E; reflexivity).
        rewrite Ht. cbn [flat_map]. rewrite IH, Hp, app_assoc. reflexivity.
      + assert (Ht : stepThrows diagnostics textDocument d = true)
          by (unfold stepThrows; rewrite E; reflexivity).
        rewrite Ht. simpl. rewrite app_nil_r. reflexivity. }
  apply (H diagnostics []).
Qed.

Lemma beforeFailure_incl diagnostics textDocument (remaining : list Diagnostic) :
  incl (beforeFailure diagnostics textDocument remaining) remaining.
Proof.
  induction remaining as [|d rest IH]; simpl; [apply incl_refl|].
  destruct (stepThrows diagnostics textDocument d).
  - intros x [].
  - apply incl_cons; [left; reflexivity | apply incl_tl, IH].
Qed.

Lemma beforeFailure_length diagnostics textDocument (remaining : list Diagnostic) :
  List.length (beforeFailure diagnostics textDocument remaining) <= List.length remaining.
Proof.
  induction remaining as [|d rest IH]; simpl; [lia|].
  destruct (stepThrows diagnostics textDocument d); simpl; lia.
Qed.

Lemma pushedBy_length diagnostics textDocument (l : list Diagnostic) :
  List.length (flat_map (pushedBy diagnostics textDocument) l) <= List.length l.
Proof.
  induction l as [|d l IH]; simpl; [lia|].
  rewrite length_app.
  destruct (pushedBy_cases diagnostics textDocument d) as [H|[a [H _]]];
    rewrite H; simpl; lia.
Qed.

(** X6: a code-action request gets at most one action for each diagnostic
    of its context, and none when the document is not open. *)
Theorem onCodeAction_bounded (st : Session.ServerState) (documentUri : string)
    (contextDiagnostics : list Diagnostic) :
  List.length (Session.onCodeAction st documentUri contextDiagnostics)
  <= List.length contextDiagnostics
  /\ (JSMap.get (Session.documents st) documentUri = None ->
      Session.onCodeAction st documentUri contextDiagnostics = []).
Proof.
  unfold Session.onCodeAction.
  destruct (JSMap.get (Session.documents st) documentUri) as [textDocument|].
  - split; [|discriminate].
    rewrite getCodeActions_in_order.
    pose proof (pushedBy_length contextDiagnostics textDocument
                  (beforeFailure contextDiagnostics textDocument contextDiagnostics)).
    pose proof (beforeFailure_length contextDiagnostics textDocument contextDiagnostics).
    lia.
  - split; [simpl; lia | reflexivity].
Qed.

(** X7: every action of [getCodeActions] changes the given document only.
    It is either the literal replacement for one diagnostic of the batch
    that has a mismatch code, with one edit at the range of that diagnostic
    and that diagnostic alone as the one it fixes, or the move-to-namespace
    action for a can-be-namespaced diagnostic, which names the whole batch
    as the diagnostics it fixes. *)
Theorem getCodeActions_actions (diagnostics : list Diagnostic) (textDocument : TextDocument)
    (action : CodeAction) :
  In action (getCodeActions diagnostics textDocument) ->
  map fst (changes (edit action)) = [uri textDocument]
  /\ exists diagnostic,
       In diagnostic diagnostics
       /\ actionFor diagnostics textDocument diagnostic action.
Proof.
  rewrite getCodeActions_in_order. intros Hin.
  apply in_flat_map in Hin. destruct Hin as [d [Hd Ha]].
  apply beforeFailure_incl in Hd.
  destruct (pushedBy_cases diagnostics textDocument d) as [H|[a [H Hfor]]];
    rewrite H in Ha; [destruct Ha|].
  destruct Ha as [<-|[]].
  split; [|exists d; split; [exact Hd | exact Hfor]].
  destruct Hfor as [[_ [r ->]]|[_ [edits ->]]]; reflexivity.
Qed.

Lemma codeActionsStep_unknown diagnostics textDocument diagnostic :
  knownCode (code diagnostic) = false ->
  codeActionsStep diagnostics textDocument diagnostic [] = Ok [].
Proof.
  unfold knownCode, mismatchCodes. cbn [existsb]. intros H.
  repeat (apply orb_false_iff in H; destruct H as [?E H]).
  unfold codeActionsStep. rewrite E, E0, E1, E2, E3. reflexivity.
Qed.

(** X8: diagnostics whose code is none of the five are passed over: taking
    them out of the list that is walked changes nothing of the result. *)
Theorem unknown_codes_are_ignored (diagnostics : list Diagnostic)
    (textDocument : TextDocument) (remaining : list Diagnostic) (codeActions : list CodeAction) :
  codeActionsLoop diagnostics textDocument
    (filter (fun d => knownCode (code d)) remaining) codeActions
  = codeActionsLoop diagnostics textDocument remaining codeActions.
Proof.
  revert codeActions. induction remaining as [|d rest IH]; intros codeActions; simpl;
    [reflexivity|].
  destruct (knownCode (code d)) eqn:E; simpl.
  - destruct (codeActionsStep diagnostics textDocument d codeActions);
      [apply IH | reflexivity].
  - rewrite (codeActionsStep_acc diagnostics textDocument d codeActions).
    rewrite codeActionsStep_unknown by exact E. rewrite app_nil_r. apply IH.
Qed.

(** X9: a can-be-namespaced diagnostic with an empty list of variables gets
    no action and does not end the batch: the diagnostics after it are
    handled as if it were not there. *)
Theorem empty_variables_are_skipped (diagnostics : list Diagnostic)
    (textDocument : TextDocument) (diagnostic : Diagnostic) (contractName : string)
    (after : list Diagnostic) (codeActions : list CodeAction) :
  contractsNamed textDocument = true ->
  code diagnostic = CONTRACT_CAN_BE_NAMESPACED ->
  data diagnostic = NamespaceableData {| LSP.contractName := contractName;
                                         contractVariables := [] |} ->
  codeActionsLoop diagnostics textDocument (diagnostic :: after) codeActions
  = codeActionsLoop diagnostics textDocument after codeActions.
Proof.
  intros Hnamed Hcode Hdata. cbn [codeActionsLoop].
  unfold codeActionsStep. rewrite Hcode, Hdata. cbn.
  rewrite getMoveAllVariablesToNamespaceQuickFix_nil by exact Hnamed. reflexivity.
Qed.

End MoreServerTheorems.

(** ** Properties of the session: settings and version inference *)
Section SessionTheorems.

Import Session.

Context {platform : Platform}.

Lemma get_set_same {V : Type} (m : JSMap.t V) (k : string) (v : V) :
  JSMap.get (JSMap.set m k v) k = Some v.
Proof.
  induction m as [|[k' v'] m IH]; simpl.
  - rewrite String.eqb_refl. reflexivity.
  - destruct (String.eqb k' k) eqn:E; simpl.
    + rewrite String.eqb_refl. reflexivity.
    + rewrite E. exact IH.
Qed.

Lemma get_set_other {V : Type} (m : JSMap.t V) (k k' : string) (v : V) :
  k <> k' -> JSMap.get (JSMap.set m k v) k' = JSMap.get m k'.
Proof.
  intros Hne. apply String.eqb_neq in Hne.
  induction m as [|[k0 v0] m IH]; simpl.
  - rewrite Hne. reflexivity.
  - destruct (String.eqb k0 k) eqn:E; simpl.
    + apply String.eqb_eq in E. subst k0. rewrite Hne. reflexivity.
    + rewrite IH. reflexivity.
Qed.

Lemma get_delete_same {V : Type} (m : JSMap.t V) (k : string) :
  JSMap.get (JSMap.delete m k) k = None.
Proof.
  induction m as [|[k' v'] m IH]; simpl; [reflexivity|].
  destruct (String.eqb k' k) eqn:E; simpl; [exact IH | rewrite E; exact IH].
Qed.

Lemma get_delete_other {V : Type} (m : JSMap.t V) (k k' : string) :
  k <> k' -> JSMap.get (JSMap.delete m k) k' = JSMap.get m k'.
Proof.
  intros Hne. apply String.eqb_neq in Hne.
  induction m as [|[k0 v0] m IH]; simpl; [reflexivity|].
  destruct (String.eqb k0 k) eqn:E; simpl.
  - apply String.eqb_eq in E. subst k0. rewrite Hne. exact IH.
  - rewrite IH. reflexivity.
Qed.

(** X10: the settings of a document are fetched once: a second request for
    the same resource gives what the first gave and leaves the state as it
    is, whatever the client would answer then; and what is cached for one
    resource does not change what another resource gets. *)
Theorem settings_are_cached (first second : string -> OpenZeppelinLSSettings)
    (st : ServerState) (resource : string) :
  getDocumentSettings second (snd (getDocumentSettings first st resource)) resource
  = getDocumentSettings first st resource
  /\ (forall other,
         resource <> other ->
         fst (getDocumentSettings second (snd (getDocumentSettings first st resource)) other)
         = fst (getDocumentSettings second st other)).
Proof.
  unfold getDocumentSettings.
  destruct (hasConfigurationCapability st) eqn:Hcap; simpl.
  - destruct (JSMap.get (documentSettings st) resource) as [cached|] eqn:Hget; simpl.
    + rewrite Hcap, Hget. simpl. split; [reflexivity|]. intros other _. reflexivity.
    + rewrite Hcap. simpl. rewrite get_set_same. split; [reflexivity|].
      intros other Hne. rewrite (get_set_other _ _ _ _ Hne).
      destruct (JSMap.get (documentSettings st) other); reflexivity.
  - rewrite Hcap. simpl. split; [reflexivity|]. intros other _. reflexivity.
Qed.

(** X11: a configuration change always asks the client for one refresh of
    the diagnostics when it does not throw. With the configuration
    capability it empties the cache, so every resource is fetched anew;
    without it, it throws on null settings, and otherwise every resource
    gets the [openzeppelinLS] member of the change, or the default settings
    when the member is absent. *)
Theorem configuration_change (st : ServerState) (settings : ChangedSettings)
    (configurationOf : string -> OpenZeppelinLSSettings) (resource : string) :
  if hasConfigurationCapability st then
    exists st',
      onDidChangeConfiguration st settings = Ok st'
      /\ refreshes st' = S (refreshes st)
      /\ fst (getDocumentSettings configurationOf st' resource) = configurationOf resource
  else
    match settings with
    | SettingsNull => onDidChangeConfiguration st settings = Throw "TypeError"
    | SettingsObject member =>
        exists st',
          onDidChangeConfiguration st settings = Ok st'
          /\ refreshes st' = S (refreshes st)
          /\ fst (getDocumentSettings configurationOf st' resource)
             = match member with
               | Some changed => changed
               | None => defaultSettings
               end
    end.
Proof.
  unfold onDidChangeConfiguration, getDocumentSettings.
  destruct st as [capable wf ri folders global cache docs n]. simpl.
  destruct capable.
  - eexists. split; [reflexivity|]. split; reflexivity.
  - destruct settings as [|member]; [reflexivity|].
    eexists. split; [reflexivity|]. split; reflexivity.
Qed.

(** X12: closing a document forgets its settings and no others: the closed
    resource is fetched anew, and every other resource still gets what was
    cached for it. *)
Theorem close_forgets_one_document (st : ServerState) (closed : string)
    (configurationOf : string -> OpenZeppelinLSSettings) :
  hasConfigurationCapability st = true ->
  fst (getDocumentSettings configurationOf (onDidClose st closed) closed)
  = configurationOf closed
  /\ (forall other,
         closed <> other ->
         fst (getDocumentSettings configurationOf (onDidClose st closed) other)
         = fst (getDocumentSettings configurationOf st other)).
Proof.
  intros Hcap. unfold getDocumentSettings, onDidClose. simpl. rewrite Hcap. simpl.
  rewrite get_delete_same. split; [reflexivity|].
  intros other Hne. rewrite (get_delete_other _ _ _ Hne).
  destruct (JSMap.get (documentSettings st) other); reflexivity.
Qed.

(** X13: [onInitialize] adds to the workspace folders the path of each
    folder of the request, in order, when the client has the workspace
    folder capability and sends folders, and nothing otherwise; the root
    of the request is never added; and the answer advertises workspace
    folder support exactly when the client has the capability. *)
Theorem onInitialize_workspaceFolders (st : ServerState) (params : InitializeParams) :
  let capable :=
    match workspace (capabilities params) with
    | Some w => optionTrue (workspaceFoldersCapability w)
    | None => false
    end in
  workspaceFolders (snd (onInitialize st params))
  = (workspaceFolders st
     ++ match paramsWorkspaceFolders params with
        | Some folders =>
            if capable then map (fun folder => fsPath (folderUri folder)) folders else []
        | None => []
        end)%list
  /\ hasWorkspaceFolderCapability (snd (onInitialize st params)) = capable
  /\ workspaceFoldersSupported (fst (onInitialize st params))
     = if capable then Some true else None.
Proof.
  intros capable. unfold onInitialize, lengthIsNull. cbn [fst snd workspaceFolders
    hasWorkspaceFolderCapability workspaceFoldersSupported].
  fold capable. split; [|split; reflexivity].
  destruct (paramsWorkspaceFolders params) as [folders|].
  - destruct capable.
    + apply (fold_left_push_map (fun folder => fsPath (folderUri folder))).
    + rewrite app_nil_r. reflexivity.
  - rewrite app_nil_r. reflexivity.
Qed.

(** X14: a version setting that is not blank is the version, as it is
    written (it is not trimmed), and no file is read for it. *)
Theorem setting_wins (configurationOf : string -> OpenZeppelinLSSettings)
    (fs : FileSystem) (st : ServerState) (textDocument : TextDocument) :
  settingIsSet (settingVersion configurationOf st textDocument) = true ->
  getSolidityVersion configurationOf fs st textDocument
  = Ok (Some (settingVersion configurationOf st textDocument),
        snd (getDocumentSettings configurationOf st (uri textDocument))).
Proof.
  unfold settingIsSet, settingVersion, getSolidityVersion. intros Hset.
  destruct (getDocumentSettings configurationOf st (uri textDocument)) as [settings st'].
  simpl in *. rewrite Hset. reflexivity.
Qed.

Lemma foundryFolders_first (fs : FileSystem) (before : list string) (folder : string)
    (after : list string) (content : string) :
  forallb (foundrySkips fs) before = true ->
  fs (pathJoin folder "foundry.toml") = Some (File content) ->
  truthy (matchFoundrySolc content) = true ->
  foundryFolders fs (before ++ folder :: after) = Ok (matchFoundrySolc content).
Proof.
  intros Hskip Hfile Hmatch.
  induction before as [|b before IH]; simpl.
  - unfold fileExists, readFile. rewrite Hfile. simpl. rewrite Hmatch. reflexivity.
  - simpl in Hskip. apply andb_true_iff in Hskip. destruct Hskip as [Hb Hrest].
    unfold foundrySkips in Hb. unfold fileExists, readFile.
    destruct (fs (pathJoin b "foundry.toml")) as [[c|]|]; [| discriminate Hb |].
    + simpl. apply negb_true_iff in Hb. rewrite Hb. apply IH, Hrest.
    + apply IH, Hrest.
Qed.

Lemma foundryFolders_none (fs : FileSystem) (folders : list string) :
  forallb (foundrySkips fs) folders = true ->
  foundryFolders fs folders = Ok None.
Proof.
  induction folders as [|b folders IH]; intros Hskip; simpl; [reflexivity|].
  simpl in Hskip. apply andb_true_iff in Hskip. destruct Hskip as [Hb Hrest].
  unfold foundrySkips in Hb. unfold fileExists, readFile.
  destruct (fs (pathJoin b "foundry.toml")) as [[c|]|]; [| discriminate Hb |].
  - simpl. apply negb_true_iff in Hb. rewrite Hb. apply IH, Hrest.
  - apply IH, Hrest.
Qed.

(** X15: with no version setting, the first workspace folder, in order,
    whose foundry.toml has a version decides: the folders in front of it
    have no foundry.toml or one without a version, and neither the folders
    after it, nor any Hardhat configuration, nor the pragma is looked at. *)
Theorem foundry_first_match_wins (configurationOf : string -> OpenZeppelinLSSettings)
    (fs : FileSystem) (st : ServerState) (textDocument : TextDocument)
    (before : list string) (folder : string) (after : list string) (content : string) :
  settingIsSet (settingVersion configurationOf st textDocument) = false ->
  workspaceFolders st = (before ++ folder :: after)%list ->
  forallb (foundrySkips fs) before = true ->
  fs (pathJoin folder "foundry.toml") = Some (File content) ->
  truthy (matchFoundrySolc content) = true ->
  getSolidityVersion configurationOf fs st textDocument
  = Ok (matchFoundrySolc content,
        snd (getDocumentSettings configurationOf st (uri textDocument))).
Proof.
  unfold settingIsSet, settingVersion, getSolidityVersion.
  intros Hset Hfolders Hskip Hfile Hmatch.
  assert (Hst : workspaceFolders (snd (getDocumentSettings configurationOf st (uri textDocument)))
                = workspaceFolders st).
  { unfold getDocumentSettings. destruct (hasConfigurationCapability st); simpl;
      [|reflexivity].
    destruct (JSMap.get (documentSettings st) (uri textDocument)); reflexivity. }
  destruct (getDocumentSettings configurationOf st (uri textDocument)) as [settings st'].
  simpl in *. rewrite Hset.
  unfold inferSolidityVersionFromFoundry. rewrite Hst, Hfolders.
  rewrite length_app. simpl.
  replace (0 <? List.length before + S (List.length after))%nat with true
    by (symmetry; apply Nat.ltb_lt; lia).
  rewrite (foundryFolders_first fs before folder after content Hskip Hfile Hmatch).
  simpl. rewrite Hmatch. reflexivity.
Qed.

(** X16: the Hardhat inference reads hardhat.config.ts of the first
    workspace folder and nothing else. With no version setting and no
    version from Foundry, when that one file is absent the version is the
    one of the pragma, or else the last supported one, whatever
    hardhat.config.js files and whatever configurations of the other
    folders there are. *)
Theorem hardhat_reads_first_ts_only (configurationOf : string -> OpenZeppelinLSSettings)
    (fs : FileSystem) (st : ServerState) (textDocument : TextDocument)
    (folder : string) (others : list string) :
  settingIsSet (settingVersion configurationOf st textDocument) = false ->
  workspaceFolders st = folder :: others ->
  forallb (foundrySkips fs) (folder :: others) = true ->
  fs (pathJoin folder "hardhat.config.ts") = None ->
  getSolidityVersion configurationOf fs st textDocument
  = Ok (fallbackVersion textDocument,
        snd (getDocumentSettings configurationOf st (uri textDocument))).
Proof.
  unfold settingIsSet, settingVersion, getSolidityVersion, fallbackVersion.
  intros Hset Hfolders Hskip Hts.
  assert (Hst : workspaceFolders (snd (getDocumentSettings configurationOf st (uri textDocument)))
                = workspaceFolders st).
  { unfold getDocumentSettings. destruct (hasConfigurationCapability st); simpl;
      [|reflexivity].
    destruct (JSMap.get (documentSettings st) (uri textDocument)); reflexivity. }
  destruct (getDocumentSettings configurationOf st (uri textDocument)) as [settings st'].
  simpl in *. rewrite Hset.
  unfold inferSolidityVersionFromFoundry, inferSolidityVersionFromHardhat.
  rewrite Hst, Hfolders. cbn [List.length Nat.ltb Nat.leb].
  rewrite (foundryFolders_none fs (folder :: others) Hskip). cbn [bind truthy].
  cbn [hardhatFolders]. unfold promiseTruthy, findVersionFromHardhatConfig, fileExists.
  rewrite Hts. cbn [bind truthy].
  destruct (truthy (getHighestSupportedPragmaVersion textDocument)); reflexivity.
Qed.

(** X17: a client that sends no workspace folders, only its root, gets no
    inference from configuration files: after [onInitialize] on a fresh
    server, with no version setting, the version is the one of the pragma
    or else the last supported one, for every file system and every root. *)
Theorem root_only_client_gets_no_inference (params : InitializeParams)
    (configurationOf : string -> OpenZeppelinLSSettings) (fs : FileSystem)
    (textDocument : TextDocument) :
  paramsWorkspaceFolders params = None ->
  let st := snd (onInitialize initialState params) in
  settingIsSet (settingVersion configurationOf st textDocument) = false ->
  getSolidityVersion configurationOf fs st textDocument
  = Ok (fallbackVersion textDocument,
        snd (getDocumentSettings configurationOf st (uri textDocument))).
Proof.
  intros Hnone st.
  assert (Hfolders : workspaceFolders st = []).
  { subst st. destruct (onInitialize_workspaceFolders initialState params) as [H _].
    rewrite H, Hnone. reflexivity. }
  unfold settingIsSet, settingVersion, getSolidityVersion, fallbackVersion.
  intros Hset.
  assert (Hst : workspaceFolders (snd (getDocumentSettings configurationOf st (uri textDocument)))
                = workspaceFolders st).
  { unfold getDocumentSettings. destruct (hasConfigurationCapability st); simpl;
      [|reflexivity].
    destruct (JSMap.get (documentSettings st) (uri textDocument)); reflexivity. }
  destruct (getDocumentSettings configurationOf st (uri textDocument)) as [settings st'].
  cbn [fst snd] in Hset, Hst. cbn beta iota zeta. cbn [snd]. rewrite Hset.
  unfold inferSolidityVersionFromFoundry, inferSolidityVersionFromHardhat.
  rewrite Hst, Hfolders. cbn.
  destruct (truthy (getHighestSupportedPragmaVersion textDocument)); reflexivity.
Qed.

End SessionTheorems.

(** ** The further theorems at the example documents *)
Section MoreEvaluations.

Import Examples MoreExamples SessionExamples.

Ltac evaluated := vm_compute; exact eq_refl.

(** X2 at scenario A. *)
Lemma fix_edits_are_grounded_scenarioA :
  exists inBodies ofVariables,
    getMoveAllVariablesToNamespaceQuickFix [] moveTitle "erc7201" "Foo" [variableAt "x" 1]
      (documentOf scenarioA)
    = Ok (Some (moveAction [] moveTitle (documentOf scenarioA) (inBodies ++ ofVariables)%list))
    /\ (forall e, In e inBodies ->
          groundedEdit (documentOf scenarioA) "Foo" [variableAt "x" 1] e)
    /\ (forall e, In e ofVariables ->
          (exists variable, In variable [variableAt "x" 1] /\ range e = variableRange variable)
          \/ (exists structEnd,
                 existingStructEnd (documentOf scenarioA) "erc7201" "Foo" = Some structEnd
                 /\ range e = slangToVSCodeRange (documentOf scenarioA) structEnd)).
Proof.
  apply (fix_edits_are_grounded [] moveTitle "erc7201" "Foo" (variableAt "x" 1) []
           (documentOf scenarioA)).
  evaluated.
Defined.

(** X3 at [withNamespace]: four edits for two variables. *)
Lemma existing_namespace_edits_withNamespace :
  exists action,
    getMoveAllVariablesToNamespaceQuickFix [] moveTitle "erc7201" "Foo"
      [variableAt "x" 5; variableAt "y" 6] (documentOf withNamespace) = Ok (Some action)
    /\ List.length (editsOf action) = 4.
Proof.
  destruct (existing_namespace_edits [] moveTitle "erc7201" "Foo" (variableAt "x" 5)
              [variableAt "y" 6] (documentOf withNamespace)
              {| Slang.start := 123; Slang.end_ := 124 |}) as [action [H1 [_ H3]]].
  - evaluated.
  - evaluated.
  - exists action. split; [exact H1|]. rewrite H3. evaluated.
Defined.

(** X4 at a contract [Foo] whose first NatSpec comment tags [FooBar]. *)
Lemma longer_name_is_detected_FooBar :
  getNamespaceStructEndRange
    (cursorAt (NonterminalNode ContractDefinition mistakenChildren) 0) "erc7201" "Foo"
  = Some {| Slang.start := 110; Slang.end_ := 111 |}.
Proof.
  rewrite (longer_name_is_detected ContractDefinition mistakenChildren 0 "erc7201" "Foo" "Bar"
             (TerminalNode SingleLineNatSpecComment
                "/// @custom:storage-location erc7201:erc7201.storage.FooBar", 19)).
  - evaluated.
  - evaluated.
  - evaluated.
  - evaluated.
Defined.

(** X7 at a batch whose first diagnostic gets the literal replacement. *)
Lemma getCodeActions_actions_hashMismatch :
  map fst (changes (edit (getQuickFixReplacement [hashMismatch]
                            "Recalculate hash using comment" (span 3 40 3 106)
                            "0xf2eacd0d8c40359509ad29d2b0d1d490123f1f694be8e963bad33c39476cd600"
                            (documentOf withNamespace))))
  = [uri (documentOf withNamespace)]
  /\ exists diagnostic,
       In diagnostic [hashMismatch; withoutData]
       /\ actionFor [hashMismatch; withoutData] (documentOf withNamespace) diagnostic
            (getQuickFixReplacement [hashMismatch]
               "Recalculate hash using comment" (span 3 40 3 106)
               "0xf2eacd0d8c40359509ad29d2b0d1d490123f1f694be8e963bad33c39476cd600"
               (documentOf withNamespace)).
Proof.
  refine (getCodeActions_actions [hashMismatch; withoutData] (documentOf withNamespace) _ _).
  vm_compute. left. reflexivity.
Defined.

(** X9 at a batch that starts with a diagnostic without variables. *)
Lemma empty_variables_are_skipped_nothingToMove :
  codeActionsLoop [nothingToMove; hashMismatch] (documentOf scenarioA)
    [nothingToMove; hashMismatch] []
  = codeActionsLoop [nothingToMove; hashMismatch] (documentOf scenarioA) [hashMismatch] [].
Proof.
  apply (empty_variables_are_skipped [nothingToMove; hashMismatch] (documentOf scenarioA)
           nothingToMove "Foo" [hashMismatch] []).
  - evaluated.
  - reflexivity.
  - reflexivity.
Defined.

(** X12 at the initialized server: closing a document makes its settings
    be fetched anew. *)
Lemma close_forgets_one_document_initialized :
  fst (Session.getDocumentSettings versionSetting
         (Session.onDidClose
            (snd (Session.getDocumentSettings noVersionSetting initialized "file:///b/Foo.sol"))
            "file:///b/Foo.sol")
         "file:///b/Foo.sol")
  = versionSetting "file:///b/Foo.sol".
Proof.
  apply (close_forgets_one_document
           (snd (Session.getDocumentSettings noVersionSetting initialized "file:///b/Foo.sol"))
           "file:///b/Foo.sol" versionSetting).
  evaluated.
Defined.

(** X14: the setting [ 0.8.22] is returned with its leading space, though
    the workspace has a foundry.toml. *)
Lemma setting_wins_untrimmed :
  Session.getSolidityVersion versionSetting workspaceFiles initialized someDocument
  = Ok (Some " 0.8.22",
        snd (Session.getDocumentSettings versionSetting initialized (uri someDocument))).
Proof.
  apply (setting_wins versionSetting workspaceFiles initialized someDocument).
  evaluated.
Defined.

(** X15: the foundry.toml of the second folder decides. *)
Lemma foundry_first_match_wins_second_folder :
  Session.getSolidityVersion noVersionSetting workspaceFiles initialized someDocument
  = Ok (Some "0.8.24",
        snd (Session.getDocumentSettings noVersionSetting initialized (uri someDocument))).
Proof.
  rewrite (foundry_first_match_wins noVersionSetting workspaceFiles initialized someDocument
             ["/a"] "/b" [] "solc = '0.8.24'") by evaluated.
  evaluated.
Defined.

(** X16: without the foundry.toml the version is the one of the pragma,
    though /a has a hardhat.config.js and /b a hardhat.config.ts that say
    0.8.19. *)
Lemma hardhat_reads_first_ts_only_workspace :
  Session.getSolidityVersion noVersionSetting hardhatOnlyFiles initialized someDocument
  = Ok (Some "0.8.20",
        snd (Session.getDocumentSettings noVersionSetting initialized (uri someDocument))).
Proof.
  rewrite (hardhat_reads_first_ts_only noVersionSetting hardhatOnlyFiles initialized
             someDocument "/a" ["/b"]) by evaluated.
  evaluated.
Defined.

(** X17: the client that sends its root only gets the version of the
    pragma, though the root has a foundry.toml. *)
Lemma root_only_client_workspace :
  Session.getSolidityVersion noVersionSetting workspaceFiles
    (snd (Session.onInitialize Session.initialState rootOnly)) someDocument
  = Ok (Some "0.8.20",
        snd (Session.getDocumentSettings noVersionSetting
               (snd (Session.onInitialize Session.initialState rootOnly)) (uri someDocument))).
Proof.
  rewrite (root_only_client_gets_no_inference rootOnly noVersionSetting workspaceFiles
             someDocument) by evaluated.
  evaluated.
Defined.

(** [trimSpaces] removes tabs, line ends and the white space beyond ASCII
    as well as spaces, at both ends only: a setting of tabs alone trims to
    the empty string, and so does not count as set. *)
Example trimSpaces_white_space :
  trimSpaces (ofBytes [9; 32] ++ "0.8.22" ++ ofBytes [13; 10]) = "0.8.22"
  /\ trimSpaces (ofBytes [9; 9]) = ""
  /\ trimSpaces (ofBytes [194; 160] ++ "a b" ++ ofBytes [227; 128; 128; 226; 128; 137]) = "a b"
  /\ trimSpaces " 0.8.22" = "0.8.22"
  /\ trimSpaces "  " = ""
  /\ @Session.settingIsSet examplePlatform (ofBytes [9]) = false.
Proof.
  repeat split; evaluated.
Qed.

End MoreEvaluations.
